(** * NALT Protocol: validation and version migration

    A shallow embedding of the validation and migration code of the
    NALT Protocol repository:

    - the JSON Schema documents [schema/v1.0.0], [schema/v1.1.1],
      [schema/v1.2.0] and the schemas embedded in [NALTValidator.loadSchema];
    - [NALTValidator] ([validate], [customValidations]) and the command-line
      validators ([validatePersonalProtocol], [validateNALTProtocol]);
    - [NALTMigrator] ([migrate], [extractVersion], [getMigrationPath],
      [migrateFrom_1_0_0], [migrateFrom_1_1_0], [migrateFrom_1_1_0_to_1_1_1],
      [migrateFrom_1_1_1], [isValidMimeType], [generateUUID]);
    - the Python migration script ([migrate_document], [migrate_entry]).

    JSON numbers are IEEE 754 binary64 values, as in JavaScript; they are
    the kernel's primitive floats.  JSON objects are finite maps from
    strings to values. *)

From Stdlib Require Import ZArith Ascii String Floats.
From stdpp Require Import base option list strings gmap pretty.

#[local] Set Warnings "-inexact-float,-register-all".
#[local] Open Scope string_scope.
#[local] Open Scope list_scope.

(** ** JSON values *)

Inductive json : Type :=
| JNull
| JBool (b : bool)
| JNum (x : float)
| JStr (s : string)
| JArr (l : list json)
| JObj (m : gmap string json).

Definition as_string (v : json) : option string :=
  match v with JStr s => Some s | _ => None end.

Definition is_JStr (k : string) (v : json) : bool :=
  match v with JStr s => String.eqb s k | _ => false end.

(** ** The runtime the code runs in

    [new Date().toISOString()], [datetime.utcnow().isoformat()] and
    [Math.random()] read the world, and every read advances it.  The
    conversions between numbers and their decimal text (ToString and
    ToNumber of the language) are services of the runtime too; they are
    pure, and the development never looks inside them. *)

Record world : Type := World {
  clock : nat -> string;          (* the n-th reading of the clock, as ISO text *)
  ticks : nat;                    (* clock readings so far *)
  dice : nat -> float;            (* the n-th result of Math.random(), in [0,1) *)
  rolls : nat;                    (* random draws so far *)
  number_text : float -> string;  (* Number::toString *)
  text_number : string -> float   (* StringToNumber *)
}.

(** How a run ends without a result.  [TypeError] is thrown by JavaScript
    and by Python, [AttributeError] by Python.  [NotJSON] is no exception:
    it marks a run that stores a function in the document, which leaves
    the JSON data model; the model follows such a run no further. *)
Inductive exn : Type := TypeError | AttributeError | NotJSON.

Inductive outcome (A : Type) : Type :=
| Threw (e : exn)
| Returned (a : A) (w : world).
Arguments Threw {A} e.
Arguments Returned {A} a w.

(** Computations that read the world and may throw. *)
Definition M (A : Type) : Type := world -> outcome A.

Definition ret {A} (a : A) : M A := fun w => Returned a w.
Definition throw {A} (e : exn) : M A := fun _ => Threw e.
Definition bind {A B} (c : M A) (k : A -> M B) : M B :=
  fun w => match c w with
           | Threw e => Threw e
           | Returned a w' => k a w'
           end.

#[export] Instance M_ret : MRet M := @ret.
#[export] Instance M_bind : MBind M := fun A B k c => bind c k.

Fixpoint foldM {A B} (f : B -> A -> M B) (l : list A) (b : B) : M B :=
  match l with
  | [] => ret b
  | x :: l' => b' ← f b x; foldM f l' b'
  end.

(** One reading of the clock: [new Date().toISOString()] in JavaScript,
    [datetime.utcnow().isoformat()] in Python. *)
Definition read_clock : M string :=
  fun w => Returned (clock w (ticks w))
             {| clock := clock w; ticks := S (ticks w);
                dice := dice w; rolls := rolls w;
                number_text := number_text w; text_number := text_number w |}.

(** [Math.random()] *)
Definition Math_random : M float :=
  fun w => Returned (dice w (rolls w))
             {| clock := clock w; ticks := ticks w;
                dice := dice w; rolls := S (rolls w);
                number_text := number_text w; text_number := text_number w |}.

(** Reading the pure services of the runtime. *)
Definition runtime : M world := fun w => Returned w w.


(** ** JavaScript values *)

Module JS.

(** ToBoolean. *)
Definition truthy (v : json) : bool :=
  match v with
  | JNull => false
  | JBool b => b
  | JNum x => negb (is_zero x || is_nan x)
  | JStr s => negb (String.eqb s "")
  | JArr _ | JObj _ => true
  end.

(** ToBoolean of a property read, where [None] is [undefined]. *)
Definition truthy_opt (o : option json) : bool :=
  match o with Some v => truthy v | None => false end.

(** [v.k] for a property name [k] that is neither an array index nor a
    member of a built-in prototype (all names the code reads are such):
    only an object can hold it.  [None] is [undefined]. *)
Definition get_prop (v : json) (k : string) : option json :=
  match v with JObj m => m !! k | _ => None end.

Definition chars (s : string) : list json :=
  (fun c => JStr (String c EmptyString)) <$> list_ascii_of_string s.

Definition indexed (l : list json) : gmap string json :=
  list_to_map (imap (fun i v => (pretty i, v)) l).

(** The own enumerable properties copied by [{ ...v }]. *)
Definition spread (v : json) : gmap string json :=
  match v with
  | JObj m => m
  | JArr l => indexed l
  | JStr s => indexed (chars s)
  | JNull | JBool _ | JNum _ => ∅
  end.

(** ToString.  In [Array.prototype.join] a [null] element gives the empty
    text. *)
Fixpoint ToString (w : world) (v : json) : string :=
  match v with
  | JNull => "null"
  | JBool true => "true"
  | JBool false => "false"
  | JNum x => number_text w x
  | JStr s => s
  | JArr l =>
      String.concat ","
        ((fix elements (l : list json) : list string :=
            match l with
            | [] => []
            | JNull :: l' => "" :: elements l'
            | e :: l' => ToString w e :: elements l'
            end) l)
  | JObj _ => "[object Object]"
  end.

(** ToString of a property read or of a template hole. *)
Definition ToString_opt (w : world) (o : option json) : string :=
  match o with Some v => ToString w v | None => "undefined" end.

(** ToNumber. *)
Definition ToNumber (w : world) (o : option json) : float :=
  match o with
  | None => nan
  | Some JNull => 0
  | Some (JBool true) => 1
  | Some (JBool false) => 0
  | Some (JNum x) => x
  | Some (JStr s) => text_number w s
  | Some (JArr l) => text_number w (ToString w (JArr l))
  | Some (JObj _) => nan
  end.

(** *** Math.round

    The integer nearest to [x], a tie going up.  Below [2^52] adding and
    subtracting [2^52] rounds a non-negative number to an integer. *)

Definition two52 : float := 4503599627370496.

Definition rint_nonneg (a : float) : float :=
  if (two52 <=? a)%float then a else (a + two52 - two52)%float.

Definition floor_nonneg (a : float) : float :=
  let r := rint_nonneg a in if (a <? r)%float then (r - 1)%float else r.

Definition Math_floor (x : float) : float :=
  if is_nan x || is_infinity x then x
  else if (0 <=? x)%float then floor_nonneg x
  else let f := floor_nonneg (- x) in
       if (f =? - x)%float then x else (- (f + 1))%float.

Definition is_neg_zero (x : float) : bool :=
  match classify x with NZero => true | _ => false end.

Definition Math_round (x : float) : float :=
  if is_nan x || is_infinity x then x
  else
    let f := Math_floor x in
    let r := if (0.5 <=? x - f)%float then (f + 1)%float else f in
    if is_zero r && ((x <? 0)%float || is_neg_zero x) then neg_zero else r.

(** *** ToInt32, the conversion behind [x | 0] *)

Definition truncate (x : float) : Z :=
  match Prim2SF x with
  | S754_finite sign m e =>
      let a := if (0 <=? e)%Z then (Z.pos m * 2 ^ e)%Z
               else (Z.pos m / 2 ^ (- e))%Z in
      if sign then (- a)%Z else a
  | _ => 0%Z
  end.

Definition ToInt32 (x : float) : Z :=
  let n := (truncate x mod 2 ^ 32)%Z in
  if (2 ^ 31 <=? n)%Z then (n - 2 ^ 32)%Z else n.

(** [v.toString(16)] for an integer [v]. *)
Definition hex_digit (d : Z) : ascii :=
  if (d <? 10)%Z then ascii_of_nat (Z.to_nat (48 + d))
  else ascii_of_nat (Z.to_nat (87 + d)).

Fixpoint hex_pos (fuel : nat) (n : Z) (acc : list ascii) : list ascii :=
  match fuel with
  | O => acc
  | S fuel' =>
      let acc' := hex_digit (n mod 16) :: acc in
      if (n <? 16)%Z then acc' else hex_pos fuel' (n / 16) acc'
  end.

Definition toString16 (v : Z) : list ascii :=
  if (v <? 0)%Z then "-"%char :: hex_pos 8 (- v) [] else hex_pos 8 v [].

End JS.

(** ** NALTMigrator (docs/AI_DOCUMENTATION.md, section 7.1) *)

Module NALTMigrator.
Import JS.

Record MigrationResult : Type := { document : gmap string json; migrated : bool }.

(** *** extractVersion

    [specVersion.match(/(\d+\.\d+\.\d+)/)]: the leftmost match; each [\d+]
    is greedy, and giving digits back cannot help (what follows a shorter
    run is a digit, not a dot), so a match at a position takes the three
    maximal digit runs. *)

Definition is_digit (c : ascii) : bool :=
  (48 <=? nat_of_ascii c)%nat && (nat_of_ascii c <=? 57)%nat.

(** The maximal run of digits at the head of [s], and the rest. *)
Fixpoint digits (s : list ascii) : list ascii * list ascii :=
  match s with
  | c :: s' => if is_digit c
               then let '(d, r) := digits s' in (c :: d, r)
               else ([], s)
  | [] => ([], [])
  end.

Definition dot : ascii := "."%char.

(** [\d+\.\d+\.\d+] matched at the head of [s]. *)
Definition version_at (s : list ascii) : option (list ascii) :=
  match digits s with
  | ([], _) => None
  | (a, c1 :: r1) =>
      if Ascii.eqb c1 dot then
        match digits r1 with
        | ([], _) => None
        | (b, c2 :: r2) =>
            if Ascii.eqb c2 dot then
              match digits r2 with
              | ([], _) => None
              | (c, _) => Some (a ++ dot :: b ++ dot :: c)%list
              end
            else None
        | (_, []) => None
        end
      else None
  | (_, []) => None
  end.

Fixpoint version_search (s : list ascii) : option (list ascii) :=
  match version_at s with
  | Some v => Some v
  | None => match s with
            | [] => None
            | _ :: s' => version_search s'
            end
  end.

(** The first capture group of the leftmost match in [s]. *)
Definition version_in (s : string) : option string :=
  string_of_list_ascii <$> version_search (list_ascii_of_string s).

(** [None] in the result is JavaScript's [null].  Only a string has a
    [match] method: on any other value, and on a missing [spec_version],
    the call throws. *)
Definition extractVersion (specVersion : option json) : M (option string) :=
  match specVersion with
  | Some (JStr s) => ret (version_in s)
  | _ => throw TypeError
  end.

(** *** getMigrationPath *)

Definition versions : list string := ["1.0.0"; "1.1.0"; "1.1.1"; "1.2.0"].

(** [Array.prototype.indexOf] on strings; [-1] when absent. *)
Fixpoint indexOf_from (i : Z) (l : list string) (x : string) : Z :=
  match l with
  | [] => (-1)%Z
  | y :: l' => if String.eqb y x then i else indexOf_from (i + 1)%Z l' x
  end.

Definition indexOf (l : list string) (x : option string) : Z :=
  match x with
  | Some s => indexOf_from 0%Z l s
  | None => (-1)%Z          (* null is not an element *)
  end.

(** [l.slice(a, b)] for [0 <= a]. *)
Definition slice {A} (l : list A) (a b : Z) : list A :=
  take (Z.to_nat (b - a)) (drop (Z.to_nat a) l).

Definition getMigrationPath (from to : option string) : list string :=
  let fromIndex := indexOf versions from in
  let toIndex := indexOf versions to in
  if (fromIndex =? -1)%Z || (toIndex =? -1)%Z || (toIndex <=? fromIndex)%Z
  then []
  else slice versions (fromIndex + 1) (toIndex + 1).

(** *** migrateFrom_1_1_0_to_1_1_1 *)

Definition add_created_at (timestamp : json) (entry : json) : M json :=
  match entry with
  | JNull => throw TypeError                  (* null.created_at *)
  | _ => if truthy_opt (get_prop entry "created_at")
         then ret entry
         else ret (JObj (<["created_at" := timestamp]> (spread entry)))
  end.

Definition migrateFrom_1_1_0_to_1_1_1 (document : gmap string json)
  : M (gmap string json) :=
  let timestamp := document !! "timestamp" in
  let documentWithoutTimestamp := delete "timestamp" document in
  let documentWithoutTimestamp :=
    <["spec_version" := JStr "nalt-protocol/1.1.1"]> documentWithoutTimestamp in
  match timestamp, documentWithoutTimestamp !! "entries" with
  | Some ts, Some entries =>
      if truthy ts && truthy entries then
        match entries with
        | JArr es =>
            es' ← mapM (add_created_at ts) es;
            ret (<["entries" := JArr es']> documentWithoutTimestamp)
        | _ => throw TypeError                (* entries.map is not a function *)
        end
      else ret documentWithoutTimestamp
  | _, _ => ret documentWithoutTimestamp
  end.

(** *** migrateFrom_1_1_1 *)

Definition fieldMappings : list (string * string) :=
  [("summary", "x_summary"); ("moods", "x_moods"); ("tags", "x_tags");
   ("entities", "x_entities"); ("end_date", "x_end_date");
   ("created_at", "x_created_at")].

(** One turn of the [forEach] over [fieldMappings]. *)
Definition relocate (newEntry : gmap string json) (mapping : string * string)
  : gmap string json :=
  let '(oldField, newField) := mapping in
  match newEntry !! oldField with
  | Some v => delete oldField (<[newField := v]> newEntry)
  | None => newEntry
  end.

Definition migrate_entry_1_1_1 (entry : json) : json :=
  JObj (foldl relocate (spread entry) fieldMappings).

Definition x_migration (from_version to_version migrated_at : string) : json :=
  JObj (<["from_version" := JStr from_version]>
        (<["to_version" := JStr to_version]>
         (<["migrated_at" := JStr migrated_at]> ∅))).

Definition migrateFrom_1_1_1 (document : gmap string json)
  : M (gmap string json) :=
  let migrated := document in
  let migrated := <["spec_version" := JStr "nalt-protocol/1.2.0"]> migrated in
  let migrated :=
    match migrated !! "signature" with
    | Some sig =>
        if truthy sig
        then delete "signature" (<["x_signature" := sig]> migrated)
        else migrated
    | None => migrated
    end in
  let migrated :=
    match migrated !! "meta" with
    | Some (JObj meta) =>
        match meta !! "x_utc_offset_minutes" with
        | Some off =>
            <["meta" := JObj (delete "x_utc_offset_minutes" meta)]>
              (<["x_utc_offset_minutes" := off]> migrated)
        | None => migrated
        end
    | _ => migrated
    end in
  match migrated !! "entries" with
  | Some (JArr es) =>
      let migrated := <["entries" := JArr (migrate_entry_1_1_1 <$> es)]> migrated in
      now ← read_clock;
      ret (<["x_migration" := x_migration "1.1.1" "1.2.0" now]> migrated)
  | _ => throw TypeError                      (* entries.map is not a function *)
  end.

(** *** migrateFrom_1_1_0 *)

Definition migrateFrom_1_1_0 (document : gmap string json)
  : M (gmap string json) :=
  v1_1_1 ← migrateFrom_1_1_0_to_1_1_1 document;
  migrateFrom_1_1_1 v1_1_1.

(** *** isValidMimeType

    [validTypes.includes(format)] compares without conversion: only a
    string can be an element. *)

Definition validTypes : list string :=
  ["text/plain"; "text/markdown"; "text/html"; "application/json"; "text/org"].

Definition isValidMimeType (format : option json) : bool :=
  match format with
  | Some (JStr s) => existsb (String.eqb s) validTypes
  | _ => false
  end.

(** *** generateUUID

    Every [x] and [y] of the template is replaced, left to right, by one
    hexadecimal digit drawn from [Math.random()]. *)

Definition uuid_template : string := "xxxxxxxx-xxxx-4xxx-yxxx-xxxxxxxxxxxx".

Definition uuid_char (c : ascii) : M (list ascii) :=
  if Ascii.eqb c "x"%char || Ascii.eqb c "y"%char then
    x ← Math_random;
    let r := ToInt32 (x * 16)%float in
    let v := if Ascii.eqb c "x"%char then r else Z.lor (Z.land r 3) 8 in
    ret (toString16 v)
  else ret [c].

Definition generateUUID : M string :=
  parts ← mapM uuid_char (list_ascii_of_string uuid_template);
  ret (string_of_list_ascii (concat parts)).

(** *** migrateFrom_1_0_0 *)

Definition formatMap : list (string * string) :=
  [("plain_text", "text/plain"); ("markdown", "text/markdown");
   ("md", "text/markdown"); ("html", "text/html");
   ("json", "application/json"); ("org", "text/org")].

(** The members every object literal inherits from [Object.prototype]:
    functions, and the prototype itself under [__proto__].  All are
    truthy, and none is a JSON value. *)
Definition Object_prototype : list string :=
  ["constructor"; "__defineGetter__"; "__defineSetter__"; "hasOwnProperty";
   "__lookupGetter__"; "__lookupSetter__"; "isPrototypeOf";
   "propertyIsEnumerable"; "toString"; "valueOf"; "__proto__";
   "toLocaleString"].

Inductive member : Type :=
| Own (v : string)      (* a property of the literal *)
| Inherited             (* a member of Object.prototype *)
| Undefined.

Fixpoint assoc (k : string) (l : list (string * string)) : option string :=
  match l with
  | [] => None
  | (k', v) :: l' => if String.eqb k' k then Some v else assoc k l'
  end.

(** [formatMap[key]]: the key is converted to a string first. *)
Definition formatMap_get (w : world) (key : option json) : member :=
  let k := ToString_opt w key in
  match assoc k formatMap with
  | Some v => Own v
  | None => if existsb (String.eqb k) Object_prototype
            then Inherited else Undefined
  end.

(** [{ ...mood, intensity: Math.round(mood.intensity * 100) / 100 }] *)
Definition round_mood (mood : json) : M json :=
  match mood with
  | JNull => throw TypeError                  (* null.intensity *)
  | _ =>
      w ← runtime;
      let intensity := ToNumber w (get_prop mood "intensity") in
      ret (JObj (<["intensity" := JNum (Math_round (intensity * 100) / 100)%float]>
                   (spread mood)))
  end.

(** An inherited member of [formatMap] would be stored in the document
    as [content_format]: the run ends as [NotJSON]. *)
Definition update_entry_1_0_0 (entry : json) : M json :=
  match entry with
  | JNull => throw TypeError                  (* null.content_format *)
  | _ =>
      w ← runtime;
      let updated := spread entry in
      let content_format := get_prop entry "content_format" in
      updated ←
        match formatMap_get w content_format with
        | Own v => ret (<["content_format" := JStr v]> updated)
        | Inherited => throw NotJSON
        | Undefined =>
            if isValidMimeType content_format then ret updated
            else ret (<["content_format" := JStr "text/plain"]> updated)
        end;
      match updated !! "x_moods" with
      | Some x_moods =>
          if truthy x_moods then
            match x_moods with
            | JArr moods =>
                moods' ← mapM round_mood moods;
                ret (JObj (<["x_moods" := JArr moods']> updated))
            | _ => throw TypeError            (* x_moods.map is not a function *)
            end
          else ret (JObj updated)
      | None => ret (JObj updated)
      end
  end.

Definition migrateFrom_1_0_0 (document : gmap string json)
  : M (gmap string json) :=
  let migrated := document in
  let migrated := <["spec_version" := JStr "nalt-protocol/1.2.0"]> migrated in
  migrated ←
    (if truthy_opt (migrated !! "document_id") then ret migrated
     else id ← generateUUID; ret (<["document_id" := JStr id]> migrated));
  migrated ←
    (if truthy_opt (migrated !! "timestamp") then ret migrated
     else now ← read_clock; ret (<["timestamp" := JStr now]> migrated));
  match migrated !! "entries" with
  | Some (JArr es) =>
      es' ← mapM update_entry_1_0_0 es;
      let migrated := <["entries" := JArr es']> migrated in
      now ← read_clock;
      ret (<["x_migration" := x_migration "1.0.0" "1.2.0" now]> migrated)
  | _ => throw TypeError                      (* entries.map is not a function *)
  end.

(** *** The table of migrations and migrate

    [this.migrations] is keyed by the version a document comes from;
    ['1.2.0'] holds [null], and a key outside the table reads
    [undefined]. *)

Inductive migrator : Type :=
| From_1_0_0
| From_1_1_0
| From_1_1_1.

Definition migrations (version : string) : option migrator :=
  if String.eqb version "1.0.0" then Some From_1_0_0
  else if String.eqb version "1.1.0" then Some From_1_1_0
  else if String.eqb version "1.1.1" then Some From_1_1_1
  else None.

Definition run_migrator (m : migrator) : gmap string json -> M (gmap string json) :=
  match m with
  | From_1_0_0 => migrateFrom_1_0_0
  | From_1_1_0 => migrateFrom_1_1_0
  | From_1_1_1 => migrateFrom_1_1_1
  end.

(** One turn of the loop of [migrate] over the migration path. *)
Definition migrate_step (migratedDoc : gmap string json) (version : string)
  : M (gmap string json) :=
  match migrations version with
  | Some migrator => run_migrator migrator migratedDoc
  | None => ret migratedDoc
  end.

(** [migrate(document)] with its local constant [targetVersion] made a
    parameter; the source binds it to ['1.1.1']. *)
Definition migrate_to (targetVersion : string) (document : gmap string json)
  : M MigrationResult :=
  currentVersion ← extractVersion (document !! "spec_version");
  if decide (currentVersion = Some targetVersion)
  then ret {| document := document; migrated := false |}
  else
    let migratedDoc := document in            (* { ...document } *)
    let migrationPath := getMigrationPath currentVersion (Some targetVersion) in
    migratedDoc ← foldM migrate_step migrationPath migratedDoc;
    ret {| document := migratedDoc; migrated := true |}.


(** The three single-step migrations of a v1.0.0 document, each output
    the input of the next. *)
Definition single_steps (document : gmap string json) : M (gmap string json) :=
  v1 ← migrateFrom_1_0_0 document;
  v1_1_1 ← migrateFrom_1_1_0_to_1_1_1 v1;
  migrateFrom_1_1_1 v1_1_1.

(** [migrate(migrate(migrate(doc, '1.1.0').document, '1.1.1').document,
    '1.2.0')] *)
Definition migrate_chain (doc : gmap string json) : M MigrationResult :=
  r1 ← migrate_to "1.1.0" doc;
  r2 ← migrate_to "1.1.1" (document r1);
  migrate_to "1.2.0" (document r2).

(** [doc.entries[i][field]] *)
Definition entry_field (doc : gmap string json) (i : nat) (field : string)
  : option json :=
  match doc !! "entries" with
  | Some (JArr es) => es !! i ≫= fun e => get_prop e field
  | _ => None
  end.

End NALTMigrator.

(** ** The Python migration script, v1.1.1 to v1.2.0
    (docs/AI_DOCUMENTATION.md, section 11.1: [migrate_document],
    [migrate_entry])

    [json.load] gives [None], booleans, numbers, [str], [list] and [dict];
    the script passes numbers through untouched. *)

Module Py.

(** [key in container] *)
Definition contains (container : json) (key : string) : M bool :=
  match container with
  | JObj m => ret (bool_decide (is_Some (m !! key)))
  | JArr l => ret (existsb (is_JStr key) l)
  | JStr s => ret (bool_decide (is_Some (String.index 0 key s)))
  | JNull | JBool _ | JNum _ => throw TypeError   (* not iterable *)
  end.

Definition field_mappings : list (string * string) :=
  [("summary", "x_summary"); ("moods", "x_moods"); ("tags", "x_tags");
   ("entities", "x_entities"); ("end_date", "x_end_date");
   ("created_at", "x_created_at")].

(** One turn of the loop of [migrate_entry] on a [dict]:
    [new_entry[new_field] = new_entry.pop(old_field)]. *)
Definition relocate (new_entry : gmap string json) (mapping : string * string)
  : gmap string json :=
  let '(old_field, new_field) := mapping in
  match new_entry !! old_field with
  | Some v => <[new_field := v]> (delete old_field new_entry)
  | None => new_entry
  end.

(** A [list] has a [copy] method too; [pop] with a [str] argument then
    raises.  No other value has [copy]. *)
Definition migrate_entry (entry : json) : M json :=
  match entry with
  | JObj m => ret (JObj (foldl relocate m field_mappings))
  | JArr l =>
      if existsb (fun mapping => existsb (is_JStr mapping.1) l) field_mappings
      then throw TypeError
      else ret (JArr l)
  | JNull | JBool _ | JNum _ | JStr _ => throw AttributeError
  end.

(** The values a [for] loop over [entries] visits. *)
Definition iterate (entries : json) : M (list json) :=
  match entries with
  | JArr l => ret l
  | JObj m => ret (JStr <$> (map_to_list m).*1)          (* the keys *)
  | JStr s => ret ((fun c => JStr (String c EmptyString)) <$> list_ascii_of_string s)
  | JNull | JBool _ | JNum _ => throw TypeError          (* not iterable *)
  end.

Definition migrate_document (old_doc : gmap string json) : M (gmap string json) :=
  let new_doc := old_doc in
  let new_doc :=
    match new_doc !! "signature" with
    | Some v => <["x_signature" := v]> (delete "signature" new_doc)
    | None => new_doc
    end in
  let meta := default (JObj ∅) (new_doc !! "meta") in
  has_offset ← contains meta "x_utc_offset_minutes";
  new_doc ←
    (if has_offset : bool then
       match meta with
       | JObj m =>
           match m !! "x_utc_offset_minutes" with
           | Some off =>
               ret (<["x_utc_offset_minutes" := off]>
                      (<["meta" := JObj (delete "x_utc_offset_minutes" m)]> new_doc))
           | None => ret new_doc
           end
       | JArr _ => throw TypeError            (* list.pop of a str *)
       | _ => throw AttributeError            (* str has no pop *)
       end
     else ret new_doc);
  entries ← iterate (default (JArr []) (new_doc !! "entries"));
  entries' ← mapM migrate_entry entries;
  let new_doc := <["entries" := JArr entries']> new_doc in
  let new_doc := <["spec_version" := JStr "nalt-protocol/1.2.0"]> new_doc in
  now ← read_clock;
  ret (<["x_migrated_at" := JStr (now +:+ "Z")]> new_doc).

End Py.

(** ** Regular expressions, matched by derivatives

    Enough of the regular expressions of JavaScript for the [pattern] and
    [patternProperties] keywords of the schemas and for the formats of
    ajv-formats. *)

Module Regex.

Inductive regex : Type :=
| Void                                  (* matches nothing *)
| Eps                                   (* the empty text *)
| Class (p : ascii -> bool)             (* one character of a class *)
| Seq (r1 r2 : regex)
| Alt (r1 r2 : regex)
| Star (r : regex).

Fixpoint nullable (r : regex) : bool :=
  match r with
  | Void => false
  | Eps => true
  | Class _ => false
  | Seq r1 r2 => nullable r1 && nullable r2
  | Alt r1 r2 => nullable r1 || nullable r2
  | Star _ => true
  end.

Fixpoint deriv (c : ascii) (r : regex) : regex :=
  match r with
  | Void => Void
  | Eps => Void
  | Class p => if p c then Eps else Void
  | Seq r1 r2 =>
      if nullable r1 then Alt (Seq (deriv c r1) r2) (deriv c r2)
      else Seq (deriv c r1) r2
  | Alt r1 r2 => Alt (deriv c r1) (deriv c r2)
  | Star r1 => Seq (deriv c r1) (Star r1)
  end.

Definition derivs (s : list ascii) (r : regex) : regex :=
  fold_left (fun r c => deriv c r) s r.

(** The whole of [s] matches [r]: a pattern anchored as [^...$]. *)
Definition full_match (r : regex) (s : string) : bool :=
  nullable (derivs (list_ascii_of_string s) r).

Definition char (c : ascii) : regex := Class (Ascii.eqb c).

Fixpoint lit (s : string) : regex :=
  match s with
  | EmptyString => Eps
  | String c s' => Seq (char c) (lit s')
  end.

Fixpoint rep (n : nat) (r : regex) : regex :=
  match n with
  | O => Eps
  | S n' => Seq r (rep n' r)
  end.

Definition plus (r : regex) : regex := Seq r (Star r).
Definition opt (r : regex) : regex := Alt Eps r.
Definition any : regex := Class (fun _ => true).

Definition between (lo hi : nat) (c : ascii) : bool :=
  (lo <=? nat_of_ascii c)%nat && (nat_of_ascii c <=? hi)%nat.

Definition digit : ascii -> bool := between 48 57.     (* [0-9], \d *)
Definition lower : ascii -> bool := between 97 122.    (* [a-z] *)
Definition upper : ascii -> bool := between 65 90.     (* [A-Z] *)

(** A letter, under the [i] flag. *)
Definition letter_i (c : ascii) : regex :=
  Class (fun x => Ascii.eqb x c
                  || (lower c && (nat_of_ascii x + 32 =? nat_of_ascii c)%nat)
                  || (upper c && (nat_of_ascii x =? nat_of_ascii c + 32)%nat)).

Fixpoint lit_i (s : string) : regex :=
  match s with
  | EmptyString => Eps
  | String c s' => Seq (letter_i c) (lit_i s')
  end.

(** An expression no text matches, and one every text matches: the two
    ways a match is settled before the text ends. *)
Inductive dead : regex -> Prop :=
| dead_Void : dead Void
| dead_Seq r1 r2 : dead r1 -> dead (Seq r1 r2)
| dead_Alt r1 r2 : dead r1 -> dead r2 -> dead (Alt r1 r2).

Inductive accepts_all : regex -> Prop :=
| all_Seq r : nullable r = true -> accepts_all (Seq r (Star any))
| all_Alt r1 r2 : accepts_all r2 -> accepts_all (Alt r1 r2).

End Regex.

(** ** Ajv: validation of a JSON value against a JSON Schema

    The library is not part of the repository; this is draft-07 validation
    for the keywords the repository's schemas use, reporting as Ajv does:
    with [allErrors] every failing keyword gives an error, without it
    validation ends at the first.  A [$ref] is the definition it names;
    annotations ([description], [title]) say nothing about an instance. *)

Module Ajv.
Import Regex.

Inductive jtype : Type :=
| TString | TNumber | TInteger | TArray | TObject.

Inductive format_name : Type := uuid | date | date_time.

Inductive keyword : Type :=
| type_ (t : jtype)
| enum (allowed : list string)
| pattern (source : string) (r : regex)
| format (f : format_name)
| maxLength (n : nat)
| minimum (x : float)
| maximum (x : float)
| multipleOf (x : float)
| minItems (n : nat)
| maxItems (n : nat)
| items (s : list keyword)
| required (names : list string)
| properties (ps : list (string * list keyword))
| patternProperties (ps : list (regex * list keyword))
| additionalProperties (allowed : bool)
| additionalProperties_schema (s : list keyword).

(** A schema is the list of its keywords. *)

Record error : Type := Error {
  instancePath : string;   (* JSON pointer to the failing value *)
  failed : string;         (* the keyword that failed *)
  param : string           (* the property, type, format or pattern concerned *)
}.

(** *** Numbers *)

(** A number with no fractional part ([!(data % 1)]). *)
Definition is_integer (x : float) : bool :=
  match Prim2SF x with
  | S754_zero _ => true
  | S754_finite _ m e =>
      (0 <=? e)%Z || (Z.pos m mod 2 ^ (- e) =? 0)%Z
  | _ => false
  end.

(** [res === parseInt(res)]: [parseInt] reads the decimal text of [res],
    which from [1e21] on is in exponent form and reads as its first
    digit. *)
Definition parseInt_same (res : float) : bool :=
  is_finite res && is_integer res && (abs res <? 1e21)%float.

(** *** Formats (ajv-formats, full mode) *)

Definition two_digits : regex := rep 2 (Class digit).

Definition DATE : regex :=
  Seq (rep 4 (Class digit))
    (Seq (char "-") (Seq two_digits (Seq (char "-") two_digits))).

Definition digit_value (c : ascii) : nat := nat_of_ascii c - 48.

(** The number written by the digits of [s] from position [i], [n] long. *)
Definition number_at (i n : nat) (s : string) : nat :=
  fold_left (fun acc c => 10 * acc + digit_value c)
    (list_ascii_of_string (substring i n s)) 0.

Definition isLeapYear (year : nat) : bool :=
  (year mod 4 =? 0)%nat
  && (negb (year mod 100 =? 0)%nat || (year mod 400 =? 0)%nat).

Definition DAYS : list nat := [0; 31; 28; 31; 30; 31; 30; 31; 31; 30; 31; 30; 31].

Definition date_ok (s : string) : bool :=
  full_match DATE s &&
  let year := number_at 0 4 s in
  let month := number_at 5 2 s in
  let day := number_at 8 2 s in
  (1 <=? month)%nat && (month <=? 12)%nat && (1 <=? day)%nat
  && (day <=? (if (month =? 2)%nat && isLeapYear year then 29
               else nth month DAYS 0))%nat.

(** [/^(\d\d):(\d\d):(\d\d)(\.\d+)?(z|[+-]\d\d(?::?\d\d)?)?$/i] *)
Definition TIME : regex :=
  Seq two_digits (Seq (char ":") (Seq two_digits (Seq (char ":") (Seq two_digits
    (Seq (opt (Seq (char ".") (plus (Class digit))))
         (opt (Alt (letter_i "z")
                   (Seq (Alt (char "+") (char "-"))
                        (Seq two_digits
                             (opt (Seq (opt (char ":")) two_digits))))))))))).

Definition time_ok (s : string) : bool :=
  full_match TIME s &&
  let hour := number_at 0 2 s in
  let minute := number_at 3 2 s in
  let second := number_at 6 2 s in
  ((hour <=? 23)%nat && (minute <=? 59)%nat && (second <=? 59)%nat)
  || ((hour =? 23)%nat && (minute =? 59)%nat && (second =? 60)%nat).

(** [/t|\s/i], the separator of date and time. *)
Definition is_separator (c : ascii) : bool :=
  Ascii.eqb c "t" || Ascii.eqb c "T" || Ascii.eqb c " "
  || between 9 13 c.

(** [str.split(DATE_TIME_SEPARATOR)] *)
Fixpoint split_on (p : ascii -> bool) (s : string) : list string :=
  match s with
  | EmptyString => [EmptyString]
  | String c s' =>
      if p c then EmptyString :: split_on p s'
      else match split_on p s' with
           | x :: xs => String c x :: xs
           | [] => [String c EmptyString]
           end
  end.

Definition date_time_ok (s : string) : bool :=
  match split_on is_separator s with
  | [d; t] => date_ok d && time_ok t
  | _ => false
  end.

Definition hex_i : regex :=
  Class (fun c => digit c || between 97 102 c || between 65 70 c).

(** [/^(?:urn:uuid:)?[0-9a-f]{8}-(?:[0-9a-f]{4}-){3}[0-9a-f]{12}$/i] *)
Definition UUID : regex :=
  Seq (opt (lit_i "urn:uuid:"))
    (Seq (rep 8 hex_i)
       (Seq (char "-")
          (Seq (rep 3 (Seq (rep 4 hex_i) (char "-")))
             (rep 12 hex_i)))).

Definition format_ok (f : format_name) (s : string) : bool :=
  match f with
  | uuid => full_match UUID s
  | date => date_ok s
  | date_time => date_time_ok s
  end.

Definition format_text (f : format_name) : string :=
  match f with
  | uuid => "uuid"
  | date => "date"
  | date_time => "date-time"
  end.

(** *** Types *)

Definition has_type (t : jtype) (data : json) : bool :=
  match t, data with
  | TString, JStr _ => true
  | TNumber, JNum x => is_finite x
  | TInteger, JNum x => is_finite x && is_integer x
  | TArray, JArr _ => true
  | TObject, JObj _ => true
  | _, _ => false
  end.

Definition type_text (t : jtype) : string :=
  match t with
  | TString => "string"
  | TNumber => "number"
  | TInteger => "integer"
  | TArray => "array"
  | TObject => "object"
  end.

(** [enum] of strings: only an equal string is allowed. *)
Definition in_enum (allowed : list string) (data : json) : bool :=
  match data with
  | JStr s => existsb (String.eqb s) allowed
  | _ => false
  end.

(** *** Paths: JSON pointers, [~] and [/] escaped *)

Fixpoint escape (s : string) : string :=
  match s with
  | EmptyString => EmptyString
  | String c s' =>
      if Ascii.eqb c "~" then "~0" +:+ escape s'
      else if Ascii.eqb c "/" then "~1" +:+ escape s'
      else String c (escape s')
  end.

Definition child (path name : string) : string :=
  path +:+ "/" +:+ escape name.

(** *** The keywords *)

(** The properties [additionalProperties] does not concern: those that
    [properties] names and those a pattern of [patternProperties]
    matches. *)
Definition declared_of (s : list keyword) : list string :=
  flat_map (fun k => match k with
                     | properties ps => ps.*1
                     | _ => []
                     end) s.

Definition patterns_of (s : list keyword) : list regex :=
  flat_map (fun k => match k with
                     | patternProperties ps => ps.*1
                     | _ => []
                     end) s.

Definition is_additional (declared : list string) (pats : list regex)
    (key : string) : bool :=
  negb (existsb (String.eqb key) declared)
  && negb (existsb (fun r => full_match r key) pats).

Fixpoint check_keyword (declared : list string) (pats : list regex)
    (path : string) (data : json) (k : keyword) {struct k} : list error :=
  match k with
  | type_ t =>
      if has_type t data then [] else [Error path "type" (type_text t)]
  | enum allowed =>
      if in_enum allowed data then [] else [Error path "enum" ""]
  | pattern source r =>
      match data with
      | JStr s => if full_match r s then [] else [Error path "pattern" source]
      | _ => []
      end
  | format f =>
      match data with
      | JStr s => if format_ok f s then [] else [Error path "format" (format_text f)]
      | _ => []
      end
  | maxLength n =>
      match data with
      | JStr s => if (String.length s <=? n)%nat then []
                  else [Error path "maxLength" ""]
      | _ => []
      end
  | minimum x =>
      match data with
      | JNum d => if (d <? x)%float || is_nan d
                  then [Error path "minimum" ""] else []
      | _ => []
      end
  | maximum x =>
      match data with
      | JNum d => if (x <? d)%float || is_nan d
                  then [Error path "maximum" ""] else []
      | _ => []
      end
  | multipleOf x =>
      match data with
      | JNum d => if (x =? 0)%float || negb (parseInt_same (d / x)%float)
                  then [Error path "multipleOf" ""] else []
      | _ => []
      end
  | minItems n =>
      match data with
      | JArr l => if (n <=? length l)%nat then [] else [Error path "minItems" ""]
      | _ => []
      end
  | maxItems n =>
      match data with
      | JArr l => if (length l <=? n)%nat then [] else [Error path "maxItems" ""]
      | _ => []
      end
  | items s =>
      match data with
      | JArr l =>
          concat (imap (fun i x =>
                          flat_map (check_keyword (declared_of s) (patterns_of s)
                                      (child path (pretty i)) x) s) l)
      | _ => []
      end
  | required names =>
      match data with
      | JObj m =>
          flat_map (fun name => match m !! name with
                                | Some _ => []
                                | None => [Error path "required" name]
                                end) names
      | _ => []
      end
  | properties ps =>
      match data with
      | JObj m =>
          flat_map (fun p : string * list keyword =>
                      match m !! p.1 with
                      | Some v =>
                          flat_map (check_keyword (declared_of p.2) (patterns_of p.2)
                                      (child path p.1) v) p.2
                      | None => []
                      end) ps
      | _ => []
      end
  | patternProperties ps =>
      match data with
      | JObj m =>
          flat_map (fun p : regex * list keyword =>
                      flat_map (fun kv : string * json =>
                                  if full_match p.1 kv.1 then
                                    flat_map (check_keyword (declared_of p.2)
                                                (patterns_of p.2)
                                                (child path kv.1) kv.2) p.2
                                  else []) (map_to_list m)) ps
      | _ => []
      end
  | additionalProperties allowed =>
      match data with
      | JObj m =>
          if allowed then []
          else flat_map (fun kv : string * json =>
                           if is_additional declared pats kv.1
                           then [Error path "additionalProperties" kv.1]
                           else []) (map_to_list m)
      | _ => []
      end
  | additionalProperties_schema s =>
      match data with
      | JObj m =>
          flat_map (fun kv : string * json =>
                      if is_additional declared pats kv.1 then
                        flat_map (check_keyword (declared_of s) (patterns_of s)
                                    (child path kv.1) kv.2) s
                      else []) (map_to_list m)
      | _ => []
      end
  end.

(** Every error of [data], at [path], against the schema [s]. *)
Definition check (s : list keyword) (path : string) (data : json) : list error :=
  flat_map (check_keyword (declared_of s) (patterns_of s) path data) s.

(** The keywords of a schema, at any depth, that can fail.
    ["additionalProperties": true] cannot. *)
Fixpoint failing_keywords (k : keyword) : list string :=
  match k with
  | type_ _ => ["type"]
  | enum _ => ["enum"]
  | pattern _ _ => ["pattern"]
  | format _ => ["format"]
  | maxLength _ => ["maxLength"]
  | minimum _ => ["minimum"]
  | maximum _ => ["maximum"]
  | multipleOf _ => ["multipleOf"]
  | minItems _ => ["minItems"]
  | maxItems _ => ["maxItems"]
  | items s => flat_map failing_keywords s
  | required _ => ["required"]
  | properties ps =>
      flat_map (fun p : string * list keyword => flat_map failing_keywords p.2) ps
  | patternProperties ps =>
      flat_map (fun p : regex * list keyword => flat_map failing_keywords p.2) ps
  | additionalProperties allowed =>
      if allowed then [] else ["additionalProperties"]
  | additionalProperties_schema s => flat_map failing_keywords s
  end.

Definition failing_keywords_of (s : list keyword) : list string :=
  flat_map failing_keywords s.

(** Every error of the keyword [k] names a keyword that can fail. *)
Definition names_failed (k : keyword) : Prop :=
  forall declared pats path data e,
    In e (check_keyword declared pats path data k) ->
    In (failed e) (failing_keywords k).

(** [validate(data)] of the function Ajv compiles from a schema: the
    errors it leaves in [validate.errors]; none when [data] is valid. *)
Definition validate (allErrors : bool) (s : list keyword) (data : json)
  : list error :=
  let errors := check s "" data in
  if allErrors then errors else take 1 errors.

End Ajv.

(** ** The schemas of the repository *)

Module Schemas.
Import Regex Ajv.

(** The patterns of the schemas. *)
Definition spec_version_pattern (version : string) : keyword :=
  pattern ("^nalt-protocol/" +:+ version +:+ "$") (lit ("nalt-protocol/" +:+ version)).

Definition date_pattern : keyword :=
  pattern "^[0-9]{4}-[0-9]{2}-[0-9]{2}$" DATE.

Definition language_pattern : keyword :=
  pattern "^[a-z]{2}$" (rep 2 (Class lower)).

Definition tag_pattern : keyword :=
  pattern "^[a-z0-9_]+$"
    (plus (Class (fun c => lower c || digit c || Ascii.eqb c "_"))).

(** The embedded schemas of [NALTValidator] leave the digits out. *)
Definition tag_pattern_letters : keyword :=
  pattern "^[a-z_]+$" (plus (Class (fun c => lower c || Ascii.eqb c "_"))).

(** ["patternProperties": { "^x_": {} }] *)
Definition x_properties : keyword :=
  patternProperties [(Seq (lit "x_") (Star any), [])].

Definition entry_types : list string :=
  ["event"; "reflection"; "task"; "idea"; "log"].
Definition entry_modes : list string :=
  ["morning"; "afternoon"; "evening"; "night"; "none"].
Definition content_formats : list string :=
  ["text/plain"; "text/markdown"; "text/html"; "application/json"; "text/org"].
Definition relation_types : list string :=
  ["caused_by"; "led_to"; "related_to"; "explains"; "contradicts"].
Definition signature_algs : list string := ["EdDSA"; "ES256"; "RS256"].

Definition strings : list keyword := [type_ TArray; items [type_ TString]].

(** *** schema/v1.0.0/schema.json *)

Module v1_0_0.

Definition moodObject : list keyword :=
  [type_ TObject;
   required ["type"; "intensity"];
   properties
     [("type", [type_ TString;
                enum ["happy"; "excited"; "peaceful"; "content"; "grateful";
                      "sad"; "angry"; "anxious"; "frustrated"; "tired";
                      "confused"; "lonely"; "calm"; "neutral"; "curious";
                      "nostalgic"; "surprised"; "hopeful"; "proud"; "motivated"]]);
      ("intensity", [type_ TNumber; minimum 0.0; maximum 1.0])]].

Definition entitiesObject : list keyword :=
  [type_ TObject;
   properties
     [("people", strings); ("locations", strings); ("organizations", strings);
      ("products", strings); ("media", strings)]].

Definition relationObject : list keyword :=
  [type_ TObject;
   required ["type"; "target_id"];
   properties
     [("type", [type_ TString; enum relation_types]);
      ("target_id", [type_ TString])]].

Definition metaObject : list keyword :=
  [type_ TObject;
   required ["language"; "timezone"];
   properties
     [("language", [type_ TString; language_pattern]);
      ("timezone", [type_ TString])];
   x_properties;
   additionalProperties false].

Definition entryObject : list keyword :=
  [type_ TObject;
   required ["entry_id"; "type"; "mode"; "content_format"; "content"];
   properties
     [("entry_id", [type_ TString]);
      ("type", [type_ TString; enum entry_types]);
      ("mode", [type_ TString; enum entry_modes]);
      ("content_format", [type_ TString]);
      ("content", [type_ TString]);
      ("summary", [type_ TString; maxLength 140]);
      ("moods", [type_ TArray; items moodObject]);
      ("tags", [type_ TArray; minItems 1; maxItems 6;
                items [type_ TString; tag_pattern]]);
      ("entities", entitiesObject);
      ("x_due_date", [type_ TString; format date]);
      ("x_relations", [type_ TArray; items relationObject])];
   x_properties;
   additionalProperties false].

Definition schema : list keyword :=
  [type_ TObject;
   required ["spec_version"; "date"; "meta"; "entries"];
   properties
     [("spec_version", [type_ TString; spec_version_pattern "1.0.0"]);
      ("document_id", [type_ TString; format uuid]);
      ("date", [type_ TString; format date; date_pattern]);
      ("meta", metaObject);
      ("entries", [type_ TArray; minItems 1; items entryObject])];
   additionalProperties true].

End v1_0_0.

(** *** schema/v1.1.1/schema.json *)

Module v1_1_1.

Definition moodObject : list keyword :=
  [type_ TObject;
   required ["type"; "intensity"];
   properties
     [("type", [type_ TString;
                enum ["happy"; "excited"; "peaceful"; "content"; "grateful";
                      "calm"; "hopeful"; "proud"; "motivated"; "sad"; "angry";
                      "anxious"; "frustrated"; "tired"; "confused"; "lonely";
                      "neutral"; "curious"; "nostalgic"; "surprised"]]);
      ("intensity", [type_ TNumber; minimum 0.0; maximum 1.0; multipleOf 0.01])]].

Definition entitiesObject : list keyword :=
  [type_ TObject;
   properties
     [("people", strings); ("locations", strings); ("organizations", strings);
      ("products", strings); ("media", strings)];
   additionalProperties_schema strings].

Definition relationObject : list keyword :=
  [type_ TObject;
   required ["type"; "target_id"];
   properties
     [("type", [type_ TString; enum relation_types]);
      ("target_id", [type_ TString])]].

Definition signatureObject : list keyword :=
  [type_ TObject;
   required ["alg"; "sig"; "public_key"];
   properties
     [("alg", [type_ TString; enum signature_algs]);
      ("sig", [type_ TString]);
      ("public_key", [type_ TString])]].

Definition metaObject : list keyword :=
  [type_ TObject;
   required ["language"; "timezone"];
   properties
     [("language", [type_ TString; language_pattern]);
      ("timezone", [type_ TString]);
      ("x_utc_offset_minutes", [type_ TInteger])];
   x_properties;
   additionalProperties true].

Definition entryObject : list keyword :=
  [type_ TObject;
   required ["entry_id"; "type"; "mode"; "content_format"; "content"];
   properties
     [("entry_id", [type_ TString]);
      ("type", [type_ TString; enum entry_types]);
      ("mode", [type_ TString; enum entry_modes]);
      ("content_format", [type_ TString; enum content_formats]);
      ("content", [type_ TString]);
      ("end_date", [type_ TString; format date; date_pattern]);
      ("summary", [type_ TString; maxLength 140]);
      ("moods", [type_ TArray; items moodObject]);
      ("tags", [type_ TArray; minItems 1; maxItems 6;
                items [type_ TString; tag_pattern]]);
      ("entities", entitiesObject);
      ("created_at", [type_ TString; format date_time]);
      ("x_due_date", [type_ TString; format date]);
      ("x_relations", [type_ TArray; items relationObject])];
   x_properties;
   additionalProperties true].

Definition schema : list keyword :=
  [type_ TObject;
   required ["spec_version"; "document_id"; "date"; "meta"; "entries"];
   properties
     [("spec_version", [type_ TString; spec_version_pattern "1.1.1"]);
      ("document_id", [type_ TString; format uuid]);
      ("date", [type_ TString; format date; date_pattern]);
      ("meta", metaObject);
      ("entries", [type_ TArray; minItems 1; items entryObject]);
      ("signature", signatureObject)];
   additionalProperties true].

End v1_1_1.

(** *** schema/v1.2.0/schema.json (slim-core) *)

Module v1_2_0.

Definition metaObject : list keyword :=
  [type_ TObject;
   required ["language"; "timezone"];
   properties
     [("language", [type_ TString; language_pattern]);
      ("timezone", [type_ TString])];
   x_properties;
   additionalProperties true].

Definition entryObject : list keyword :=
  [type_ TObject;
   required ["entry_id"; "type"; "mode"; "content_format"; "content"];
   properties
     [("entry_id", [type_ TString]);
      ("type", [type_ TString; enum entry_types]);
      ("mode", [type_ TString; enum entry_modes]);
      ("content_format", [type_ TString; enum content_formats]);
      ("content", [type_ TString])];
   x_properties;
   additionalProperties true].

Definition schema : list keyword :=
  [type_ TObject;
   required ["spec_version"; "document_id"; "date"; "meta"; "entries"];
   properties
     [("spec_version", [type_ TString; spec_version_pattern "1.2.0"]);
      ("document_id", [type_ TString; format uuid]);
      ("date", [type_ TString; format date; date_pattern]);
      ("meta", metaObject);
      ("entries", [type_ TArray; minItems 1; items entryObject])];
   additionalProperties true].

End v1_2_0.

(** *** The schemas embedded in NALTValidator.loadSchema

    Two editions of the class are in the documentation: the current one
    (docs/AI_DOCUMENTATION.md), whose schema asks for [spec_version]
    1.1.1, and the v1.1.0 edition.  They share the definitions of an entry
    and of a signature, but for [created_at]. *)

Module embedded.

Definition mood : list keyword :=
  [type_ TObject;
   required ["type"; "intensity"];
   properties
     [("type", [type_ TString]);
      ("intensity", [type_ TNumber; minimum 0; maximum 1; multipleOf 0.01])]].

Definition entities : list keyword :=
  [type_ TObject;
   properties
     [("people", strings); ("locations", strings); ("organizations", strings)];
   additionalProperties_schema strings].

Definition relation : list keyword :=
  [type_ TObject;
   required ["type"; "target_id"];
   properties
     [("type", [enum relation_types]);
      ("target_id", [type_ TString])]].

Definition signature : list keyword :=
  [type_ TObject;
   required ["alg"; "sig"; "public_key"];
   properties
     [("alg", [enum signature_algs]);
      ("sig", [type_ TString]);
      ("public_key", [type_ TString])]].

(** The properties of an entry after [mode]: [created_at] stands there in
    the current edition only. *)
Definition entry_fields : list (string * list keyword) :=
  [("content_format", [enum content_formats]);
   ("content", [type_ TString]);
   ("summary", [type_ TString; maxLength 140]);
   ("moods", [type_ TArray; items mood]);
   ("tags", [type_ TArray; minItems 1; maxItems 6;
             items [type_ TString; tag_pattern_letters]]);
   ("entities", entities);
   ("end_date", [type_ TString; format date]);
   ("x_relations", [type_ TArray; items relation]);
   ("x_due_date", [type_ TString; format date])].

Definition entry (created_at : list (string * list keyword)) : list keyword :=
  [type_ TObject;
   required ["entry_id"; "type"; "mode"; "content_format"; "content"];
   properties
     ([("entry_id", [type_ TString]);
       ("type", [enum entry_types]);
       ("mode", [enum entry_modes])]
      ++ created_at ++ entry_fields);
   additionalProperties true].

(** [loadSchema()] of docs/AI_DOCUMENTATION.md. *)
Definition loadSchema : list keyword :=
  [type_ TObject;
   required ["spec_version"; "document_id"; "date"; "meta"; "entries"];
   additionalProperties true;
   properties
     [("spec_version", [type_ TString; spec_version_pattern "1.1.1"]);
      ("document_id", [type_ TString; format uuid]);
      ("date", [type_ TString; format date]);
      ("meta", [type_ TObject;
                required ["language"; "timezone"];
                properties
                  [("language", [type_ TString; language_pattern]);
                   ("timezone", [type_ TString])];
                additionalProperties true]);
      ("entries", [type_ TArray; minItems 1;
                   items (entry [("created_at", [type_ TString; format date_time])])]);
      ("signature", signature)]].

(** [loadSchema()] of the v1.1.0 edition of the documentation.  The file
    schema/v1.1.0/schema.json is not among the sources: this schema is
    the v1.1.0 contract the repository holds. *)
Definition loadSchema_1_1_0 : list keyword :=
  [type_ TObject;
   required ["spec_version"; "document_id"; "date"; "meta"; "entries"];
   additionalProperties true;
   properties
     [("spec_version", [type_ TString; spec_version_pattern "1.1.0"]);
      ("document_id", [type_ TString; format uuid]);
      ("date", [type_ TString; format date]);
      ("timestamp", [type_ TString; format date_time]);
      ("meta", [type_ TObject;
                required ["language"; "timezone"];
                properties
                  [("language", [type_ TString; language_pattern]);
                   ("timezone", [type_ TString]);
                   ("x_utc_offset_minutes",
                    [type_ TInteger; minimum (-720); maximum 840])];
                additionalProperties true]);
      ("entries", [type_ TArray; minItems 1; items (entry [])]);
      ("signature", signature)]].

End embedded.

End Schemas.

(** ** NALTValidator (docs/AI_DOCUMENTATION.md, section 3.2) *)

Module NALTValidator.
Import JS.

(** An entry of [errors]: one of Ajv's, or one of [customValidations]. *)
Inductive verror : Type :=
| SchemaError (e : Ajv.error)
| CustomError (path message : string).

(** [{ valid, errors }]; the result [{ valid: true }] has no [errors]. *)
Record ValidationResult : Type := {
  valid : bool;
  errors : option (list verror)
}.

(** Is the error one of [customValidations]? *)
Definition is_custom (e : verror) : bool :=
  match e with CustomError _ _ => true | SchemaError _ => false end.

(** ToPrimitive: an array or an object becomes its text. *)
Definition ToPrimitive (w : world) (v : json) : json :=
  match v with
  | JArr _ | JObj _ => JStr (ToString w v)
  | _ => v
  end.

(** [a < b]: two strings are compared as texts, anything else as numbers. *)
Definition less_than (w : world) (a : json) (b : option json) : bool :=
  match ToPrimitive w a, ToPrimitive w <$> b with
  | JStr x, Some (JStr y) => String.ltb x y
  | pa, pb => (ToNumber w (Some pa) <? ToNumber w pb)%float
  end.

(** SameValueZero, the equality of [Set.prototype.has]: arrays and
    objects are equal only to themselves, and the values read from
    different places of a parsed document are different objects. *)
Definition SameValueZero (a b : option json) : bool :=
  match a, b with
  | None, None => true
  | Some JNull, Some JNull => true
  | Some (JBool x), Some (JBool y) => Bool.eqb x y
  | Some (JNum x), Some (JNum y) => (x =? y)%float || (is_nan x && is_nan y)
  | Some (JStr x), Some (JStr y) => String.eqb x y
  | _, _ => false
  end.

Definition Set_has (s : list (option json)) (x : option json) : bool :=
  existsb (SameValueZero x) s.

(** [e => e.entry_id] *)
Definition entry_id_of (e : json) : exn + option json :=
  match e with
  | JNull => inl TypeError
  | _ => inr (get_prop e "entry_id")
  end.

(** The errors of one relation of an entry. *)
Definition check_relation (w : world) (entryIds : list (option json))
    (entry relation : json) : exn + list verror :=
  match relation with
  | JNull => inl TypeError                    (* null.target_id *)
  | _ =>
      let target_id := get_prop relation "target_id" in
      if Set_has entryIds target_id then inr []
      else inr [CustomError
                  ("/entries/" +:+ ToString_opt w (get_prop entry "entry_id")
                   +:+ "/x_relations")
                  ("Invalid target_id reference: " +:+ ToString_opt w target_id)]
  end.

(** [l.forEach(f)] where [f] pushes errors and may throw. *)
Fixpoint forEach {A} (f : A -> exn + list verror) (l : list A)
  : exn + list verror :=
  match l with
  | [] => inr []
  | x :: l' =>
      match f x with
      | inl e => inl e
      | inr es => match forEach f l' with
                  | inl e => inl e
                  | inr es' => inr (es ++ es')
                  end
      end
  end.

Definition check_entry (w : world) (entryIds : list (option json)) (entry : json)
  : exn + list verror :=
  match get_prop entry "x_relations" with
  | Some x_relations =>
      if truthy x_relations then
        match x_relations with
        | JArr relations => forEach (check_relation w entryIds entry) relations
        | _ => inl TypeError                  (* x_relations.forEach is not a function *)
        end
      else inr []
  | None => inr []
  end.

Fixpoint map_ids (es : list json) : exn + list (option json) :=
  match es with
  | [] => inr []
  | e :: es' =>
      match entry_id_of e with
      | inl x => inl x
      | inr i => match map_ids es' with
                 | inl x => inl x
                 | inr ids => inr (i :: ids)
                 end
      end
  end.

Definition customValidations (w : world) (document : json) : exn + list verror :=
  match document with
  | JObj doc =>
      let date_errors :=
        match doc !! "end_date" with
        | Some end_date =>
            if truthy end_date && less_than w end_date (doc !! "date")
            then [CustomError "/end_date" "end_date must be after or equal to date"]
            else []
        | None => []
        end in
      match doc !! "entries" with
      | Some (JArr entries) =>
          match map_ids entries with
          | inl x => inl x
          | inr entryIds =>
              match forEach (check_entry w entryIds) entries with
              | inl x => inl x
              | inr es => inr (date_errors ++ es)
              end
          end
      | _ => inl TypeError                    (* entries.map is not a function *)
      end
  | _ => inl TypeError
  end.

(** [validate] of an instance whose [loadSchema] returns [schema]; the
    constructor sets [allErrors: true]. *)
Definition validate_with (schema : list Ajv.keyword) (w : world) (document : json)
  : exn + ValidationResult :=
  match Ajv.validate true schema document with
  | [] =>
      match customValidations w document with
      | inl x => inl x
      | inr [] => inr {| valid := true; errors := None |}
      | inr customErrors => inr {| valid := false; errors := Some customErrors |}
      end
  | schema_errors =>
      inr {| valid := false; errors := Some (SchemaError <$> schema_errors) |}
  end.

Definition validate : world -> json -> exn + ValidationResult :=
  validate_with Schemas.embedded.loadSchema.

(** The v1.1.0 edition of the class. *)
Definition validate_1_1_0 : world -> json -> exn + ValidationResult :=
  validate_with Schemas.embedded.loadSchema_1_1_0.

End NALTValidator.

(** ** The command-line validators (tools/validator/nodejs/validator.js)

    [validateNALTProtocol(filePath, version)] reads the schema of the
    version and the instance, builds [new Ajv()], which ends at the first
    error, and reports; what it prints, warnings included, is left out. *)

Module CLI.

Inductive report : Type :=
| Conforms
| DoesNotConform (errors : list Ajv.error)
| NoSchema.                                   (* the schema file cannot be read *)

(** [schema/${version}/schema.json].  For v1.1.0 see
    [Schemas.embedded.loadSchema_1_1_0]. *)
Definition schema_file (version : string) : option (list Ajv.keyword) :=
  if String.eqb version "v1.0.0" then Some Schemas.v1_0_0.schema
  else if String.eqb version "v1.1.0" then Some Schemas.embedded.loadSchema_1_1_0
  else if String.eqb version "v1.1.1" then Some Schemas.v1_1_1.schema
  else if String.eqb version "v1.2.0" then Some Schemas.v1_2_0.schema
  else None.

Definition validateNALTProtocol (version : string) (instance : json) : report :=
  match schema_file version with
  | None => NoSchema
  | Some schema =>
      match Ajv.validate false schema instance with
      | [] => Conforms
      | errors => DoesNotConform errors
      end
  end.

(** The first edition of the tool: v1.0.0 only. *)
Definition validatePersonalProtocol (instance : json) : report :=
  validateNALTProtocol "v1.0.0" instance.

End CLI.

(** ** Runs that differ in the time of day only *)

Module Provenance.






End Provenance.

(** ** What the 1.1.1 to 1.2.0 step is to do: the slim core *)

Module Slim.

Definition core_fields : list string :=
  ["entry_id"; "type"; "mode"; "content_format"; "content"].

Definition kept_extensions : list string := ["x_relations"; "x_due_date"].

(** [entry'] is [entry] with every field of the table moved: the old name
    is gone and its value is under the new name; the core fields,
    [x_relations], [x_due_date] and every other field outside the table
    are as they were. *)
Definition entry_relocated (entry entry' : gmap string json) : Prop :=
  (forall old new, (old, new) ∈ NALTMigrator.fieldMappings ->
     entry' !! old = None
     /\ forall v, entry !! old = Some v -> entry' !! new = Some v)
  /\ (forall k, k ∈ core_fields ++ kept_extensions -> entry' !! k = entry !! k)
  /\ (forall k, k ∉ NALTMigrator.fieldMappings.*1 ->
                k ∉ NALTMigrator.fieldMappings.*2 -> entry' !! k = entry !! k).

Definition entries_relocated (es es' : list json) : Prop :=
  Forall2 (fun e e' => exists m m',
             e = JObj m /\ e' = JObj m' /\ entry_relocated m m') es es'.

Definition document_relocated (doc out : gmap string json) : Prop :=
  out !! "spec_version" = Some (JStr "nalt-protocol/1.2.0")
  /\ out !! "signature" = None
  /\ (forall v, doc !! "signature" = Some v -> out !! "x_signature" = Some v)
  /\ (forall meta off,
        doc !! "meta" = Some (JObj meta) ->
        meta !! "x_utc_offset_minutes" = Some off ->
        out !! "x_utc_offset_minutes" = Some off
        /\ out !! "meta" = Some (JObj (delete "x_utc_offset_minutes" meta)))
  /\ (exists es es',
        doc !! "entries" = Some (JArr es)
        /\ out !! "entries" = Some (JArr es')
        /\ entries_relocated es es').

(** An entry after the step. *)
Definition moved_entry (e : json) : json :=
  JObj (foldl Py.relocate (JS.spread e) NALTMigrator.fieldMappings).

(** The shape of a document the step is made for: [meta], when present,
    is an object, and [entries] is an array of objects. *)
Definition shaped (doc : gmap string json) : Prop :=
  (doc !! "meta" = None \/ exists meta, doc !! "meta" = Some (JObj meta))
  /\ exists es, doc !! "entries" = Some (JArr es)
               /\ Forall (fun e => exists m, e = JObj m) es.

End Slim.

(** ** Places in a document, and what validation is to find there *)

Module Places.
Import Ajv Schemas JS NALTValidator.

(** Where an object with fields of its own stands in a document. *)
Inductive place : Type := in_entry (i : nat) | in_meta.

Definition object_at (doc : gmap string json) (p : place)
  : option (gmap string json) :=
  match p with
  | in_entry i =>
      match doc !! "entries" with
      | Some (JArr es) => match es !! i with Some (JObj m) => Some m | _ => None end
      | _ => None
      end
  | in_meta => match doc !! "meta" with Some (JObj m) => Some m | _ => None end
  end.

Definition path_of (p : place) : string :=
  match p with
  | in_entry i => child (child "" "entries") (pretty i)
  | in_meta => child "" "meta"
  end.

(** The fields the v1.0.0 schema names for the object at a place. *)
Definition named_1_0_0 (p : place) : list string :=
  match p with
  | in_entry _ => declared_of v1_0_0.entryObject
  | in_meta => declared_of v1_0_0.metaObject
  end.

Definition later_versions : list string := ["v1.1.0"; "v1.1.1"; "v1.2.0"].

(** The mood [j] of the entry [i]. *)
Definition mood_at (doc : gmap string json) (i j : nat) : option (gmap string json) :=
  match doc !! "entries" with
  | Some (JArr es) =>
      match es !! i with
      | Some (JObj entry) =>
          match entry !! "moods" with
          | Some (JArr moods) =>
              match moods !! j with Some (JObj mood) => Some mood | _ => None end
          | _ => None
          end
      | _ => None
      end
  | _ => None
  end.

Definition intensity_path (i j : nat) : string :=
  child (child (child (child (child "" "entries") (pretty i)) "moods") (pretty j))
    "intensity".

Definition entry_ids (es : list json) : list (option json) :=
  (fun e => get_prop e "entry_id") <$> es.

Definition relations_of (entry : json) : list json :=
  match get_prop entry "x_relations" with
  | Some (JArr relations) => relations
  | _ => []
  end.

(** A relation whose [target_id] is the [entry_id] of no entry. *)
Definition dangling (es : list json) (relation : json) : bool :=
  negb (Set_has (entry_ids es) (get_prop relation "target_id")).

Definition dangling_error (w : world) (entry relation : json) : verror :=
  CustomError
    ("/entries/" +:+ ToString_opt w (get_prop entry "entry_id") +:+ "/x_relations")
    ("Invalid target_id reference: "
     +:+ ToString_opt w (get_prop relation "target_id")).

Definition dangling_errors (w : world) (es : list json) : list verror :=
  flat_map (fun entry =>
              dangling_error w entry <$> filter (fun r => dangling es r = true)
                                           (relations_of entry)) es.

Definition end_date_errors (w : world) (doc : gmap string json) : list verror :=
  match doc !! "end_date" with
  | Some end_date =>
      if truthy end_date && less_than w end_date (doc !! "date")
      then [CustomError "/end_date" "end_date must be after or equal to date"]
      else []
  | None => []
  end.

(** The shape the schema of the validator gives a document. *)
Definition relation_shaped (r : json) : Prop :=
  exists fields t, r = JObj fields /\ fields !! "target_id" = Some (JStr t).

Definition entry_shaped (e : json) : Prop :=
  exists fields id,
    e = JObj fields /\ fields !! "entry_id" = Some (JStr id)
    /\ forall v, fields !! "x_relations" = Some v ->
         exists relations, v = JArr relations /\ Forall relation_shaped relations.

Definition document_shaped (doc : json) : Prop :=
  exists fields es,
    doc = JObj fields /\ fields !! "entries" = Some (JArr es)
    /\ Forall entry_shaped es.

(** The relations of a document that dangle, counted. *)
Definition dangling_count (es : list json) : nat :=
  list_sum ((fun entry => length (filter (fun r => dangling es r = true)
                                      (relations_of entry))) <$> es).

End Places.

(** ** Sample documents *)

Module Samples.

Definition object (fields : list (string * json)) : json :=
  JObj (list_to_map fields).

(** A world whose clock reads [stamp0], [stamp1], ... *)
Definition world_at (stamp : string) : world :=
  {| clock := fun n => stamp +:+ pretty n; ticks := 0;
     dice := fun _ => 0.5%float; rolls := 0;
     number_text := fun _ => "0"; text_number := fun _ => 0%float |}.

Definition morning : world := world_at "2025-07-23T08:00:0".

(** The morning with another random source. *)
Definition loaded : world :=
  {| clock := clock morning; ticks := 0;
     dice := fun _ => 0.25%float; rolls := 0;
     number_text := number_text morning; text_number := text_number morning |}.

Definition entry (entry_id type content_format : string)
    (more : list (string * json)) : json :=
  object ([("entry_id", JStr entry_id); ("type", JStr type);
           ("mode", JStr "morning"); ("content_format", JStr content_format);
           ("content", JStr "hi")] ++ more).

Definition meta (more : list (string * json)) : json :=
  object ([("language", JStr "en"); ("timezone", JStr "UTC")] ++ more).

Definition doc (version : string) (meta : json) (more : list (string * json))
    (entries : list json) : gmap string json :=
  list_to_map
    ([("spec_version", JStr ("nalt-protocol/" +:+ version));
      ("date", JStr "2025-01-15"); ("meta", meta); ("entries", JArr entries)]
     ++ more).

Definition document_id : string * json :=
  ("document_id", JStr "550e8400-e29b-41d4-a716-446655440000").

Definition mood (intensity : float) : json :=
  object [("type", JStr "happy"); ("intensity", JNum intensity)].

Definition relation (target_id : string) : json :=
  object [("type", JStr "related_to"); ("target_id", JStr target_id)].

Definition signature : string * json :=
  ("signature", object [("alg", JStr "EdDSA"); ("sig", JStr "c2ln");
                        ("public_key", JStr "did:key:z6Mk")]).

(** A v1.1.1 document with every field the 1.1.1 to 1.2.0 step moves; its
    entry has both [summary] and [x_summary]. *)
Definition doc_1_1_1 : gmap string json :=
  doc "1.1.1" (meta [("x_utc_offset_minutes", JNum 60)])
    [document_id; signature]
    [entry "e1" "reflection" "text/plain"
       [("summary", JStr "new"); ("x_summary", JStr "old");
        ("moods", JArr [mood 0.5]); ("tags", JArr [JStr "work"]);
        ("x_due_date", JStr "2025-01-20");
        ("x_relations", JArr [relation "e1"])]].

(** A v1.0.0 document in a legacy content format, with no [document_id]. *)
Definition doc_1_0_0 : gmap string json :=
  doc "1.0.0" (meta []) [] [entry "e1" "event" "plain_text" []].

(** A document of a version the registry does not know. *)
Definition doc_9_9_9 : gmap string json :=
  doc "9.9.9" (meta []) [document_id] [entry "e1" "event" "text/plain" []].

(** A document of the version [version] (as [v1.1.1]) that is valid but,
    maybe, for the intensity [x] of its mood. *)
Definition doc_with_mood (version : string) (x : float) : gmap string json :=
  doc (substring 1 5 version) (meta []) [document_id]
    [entry "e1" "reflection" "text/plain" [("moods", JArr [mood x])]].

(** A valid document of the version [version] but, maybe, for the field
    [field] of its entry. *)
Definition doc_with_field (version field : string) : gmap string json :=
  doc (substring 1 5 version) (meta []) [document_id]
    [entry "e1" "event" "text/plain" [(field, JStr "?")]].

(** A v1.1.1 document, valid for the type [type] being one of the schema,
    whose entry relates to itself and to [e7], the id of no entry. *)
Definition entries_dangling (type : string) : list json :=
  [entry "e1" type "text/plain"
     [("x_relations", JArr [relation "e1"; relation "e7"])]].

Definition doc_dangling (type : string) : gmap string json :=
  doc "1.1.1" (meta []) [document_id] (entries_dangling type).

(** A v1.1.1 document with four defects: two values outside their enums,
    an intensity above 1 and a relation to [e7], the id of no entry. *)
Definition entries_defects : list json :=
  [entry "e1" "party" "text/rtf"
     [("moods", JArr [mood 1.5]);
      ("x_relations", JArr [relation "e7"])]].

Definition doc_defects : gmap string json :=
  doc "1.1.1" (meta []) [document_id] entries_defects.

End Samples.

(** ** Induction on schemas

    A keyword holds schemas inside lists; the induction principle that
    reaches them. *)

Section KeywordInduction.
Import Regex Ajv.
Variable P : keyword -> Prop.
Hypothesis P_type : forall t, P (type_ t).
Hypothesis P_enum : forall a, P (enum a).
Hypothesis P_pattern : forall src r, P (pattern src r).
Hypothesis P_format : forall f, P (format f).
Hypothesis P_maxLength : forall n, P (maxLength n).
Hypothesis P_minimum : forall x, P (minimum x).
Hypothesis P_maximum : forall x, P (maximum x).
Hypothesis P_multipleOf : forall x, P (multipleOf x).
Hypothesis P_minItems : forall n, P (minItems n).
Hypothesis P_maxItems : forall n, P (maxItems n).
Hypothesis P_items : forall s, Forall P s -> P (items s).
Hypothesis P_required : forall names, P (required names).
Hypothesis P_properties :
  forall ps, Forall (fun p : string * list keyword => Forall P p.2) ps ->
             P (properties ps).
Hypothesis P_patternProperties :
  forall ps, Forall (fun p : regex * list keyword => Forall P p.2) ps ->
             P (patternProperties ps).
Hypothesis P_additionalProperties : forall a, P (additionalProperties a).
Hypothesis P_additionalProperties_schema :
  forall s, Forall P s -> P (additionalProperties_schema s).

Fixpoint keyword_nested_ind (k : keyword) : P k :=
  let all :=
    fix all (s : list keyword) : Forall P s :=
      match s with
      | [] => @List.Forall_nil _ P
      | k' :: s' => @List.Forall_cons _ P k' s' (keyword_nested_ind k') (all s')
      end in
  match k with
  | type_ t => P_type t
  | enum a => P_enum a
  | pattern src r => P_pattern src r
  | format f => P_format f
  | maxLength n => P_maxLength n
  | minimum x => P_minimum x
  | maximum x => P_maximum x
  | multipleOf x => P_multipleOf x
  | minItems n => P_minItems n
  | maxItems n => P_maxItems n
  | items s => P_items s (all s)
  | required names => P_required names
  | properties ps =>
      P_properties ps
        ((fix each (ps : list (string * list keyword)) :=
            match ps return Forall (fun p => Forall P p.2) ps with
            | [] => @List.Forall_nil _ _
            | p :: ps' => @List.Forall_cons _ _ p ps' (all p.2) (each ps')
            end) ps)
  | patternProperties ps =>
      P_patternProperties ps
        ((fix each (ps : list (regex * list keyword)) :=
            match ps return Forall (fun p => Forall P p.2) ps with
            | [] => @List.Forall_nil _ _
            | p :: ps' => @List.Forall_cons _ _ p ps' (all p.2) (each ps')
            end) ps)
  | additionalProperties a => P_additionalProperties a
  | additionalProperties_schema s => P_additionalProperties_schema s (all s)
  end.
End KeywordInduction.

(** Membership in a list that is written out. *)
Ltac in_list := solve [repeat (first [left; reflexivity | right])].

(** Unfolding the monad of runs. *)
Ltac run := cbv [mbind M_bind bind mret M_ret ret throw] in *.

(** * Properties *)

Lemma mapM_cons {A B} (f : A -> M B) x l w :
  mapM f (x :: l) w
  = match f x w with
    | Threw e => Threw e
    | Returned y w' =>
        match mapM f l w' with
        | Threw e => Threw e
        | Returned ys w'' => Returned (y :: ys) w''
        end
    end.
Proof. reflexivity. Qed.

(** A step that never throws and leaves the world alone maps as a
    function. *)
Lemma mapM_pure {A B} (f : A -> M B) (g : A -> B) l w :
  Forall (fun x => forall w, f x w = Returned (g x) w) l ->
  mapM f l w = Returned (g <$> l) w.
Proof.
  intros Hl. induction Hl as [|x l Hx _ IH]; [reflexivity|].
  by rewrite mapM_cons, Hx, IH.
Qed.

(** ** The runs of a migration *)

Section MigratorFacts.
Import JS NALTMigrator.



(** A version outside the registry has index [-1], and the path is empty. *)
Lemma indexOf_from_spec i l x :
  (0 <= i)%Z ->
  (indexOf_from i l x = -1)%Z <-> x ∉ l.
Proof.
  revert i. induction l as [|y l IH]; intros i Hi; simpl.
  - split; [intros _; apply not_elem_of_nil | reflexivity].
  - destruct (String.eqb_spec y x) as [-> | Hne].
    + split; [lia | intros H; exfalso; apply H; left].
    + rewrite IH by lia. rewrite not_elem_of_cons. split; [by auto | by intros []].
Qed.

Lemma getMigrationPath_unknown from to :
  (from ∉ Some <$> versions) \/ (to ∉ Some <$> versions) ->
  getMigrationPath from to = [].
Proof.
  intros H. unfold getMigrationPath.
  assert (Hidx : forall o, o ∉ Some <$> versions -> indexOf versions o = (-1)%Z).
  { intros [x|] Ho; [|reflexivity]. unfold indexOf.
    apply indexOf_from_spec; [lia|].
    intros Hx. apply Ho. by apply list_elem_of_fmap_2. }
  destruct H as [H | H]; rewrite (Hidx _ H).
  - reflexivity.
  - rewrite Z.eqb_refl. by rewrite orb_true_r.
Qed.

End MigratorFacts.

Section Migrate.
Import JS NALTMigrator.




(** C5, as the claim states it, fails: the document declares version
    9.9.9, which the registry does not know, and [migrate] returns a
    result instead of failing. *)
Lemma migrate_unknown_version_returns :
  version_in "nalt-protocol/9.9.9" = Some "9.9.9"
  /\ ("9.9.9" ∉ versions)
  /\ migrate_to "1.2.0" Samples.doc_9_9_9 Samples.morning
     = Returned {| document := Samples.doc_9_9_9; migrated := true |} Samples.morning
  /\ ~ (exists e, migrate_to "1.2.0" Samples.doc_9_9_9 Samples.morning = Threw e).
Proof.
  assert (H : migrate_to "1.2.0" Samples.doc_9_9_9 Samples.morning
              = Returned {| document := Samples.doc_9_9_9; migrated := true |}
                  Samples.morning) by (vm_compute; reflexivity).
  split; [reflexivity |]. split.
  - unfold versions. rewrite !not_elem_of_cons. repeat split; try discriminate.
    apply not_elem_of_nil.
  - split; [exact H |]. intros [e He]. rewrite H in He. discriminate.
Qed.

(** C5, amended.  When the [spec_version] of the document is a string
    that names no version of the registry, or the target is no version of
    the registry, [migrate] throws nothing: the migration path is empty,
    no step runs, and the result carries the document unchanged;
    [migrated] is [true] unless the version found in [spec_version] is the
    target itself. *)
Theorem migrate_unknown_version_applies_no_step w doc s t :
  doc !! "spec_version" = Some (JStr s) ->
(version_in s ∉ Some <$> versions) \/ (t ∉ versions) ->
  migrate_to t doc w
  = Returned {| document := doc;
                migrated := bool_decide (version_in s ≠ Some t) |} w.
Proof.
  intros Hs Hunknown. unfold migrate_to, extractVersion. rewrite Hs. run.
  destruct (decide (version_in s = Some t)) as [Heq | Hne].
  - rewrite bool_decide_eq_false_2; [reflexivity | by intros []].
  - rewrite getMigrationPath_unknown.
    + simpl. run. by rewrite bool_decide_eq_true_2.
    + destruct Hunknown as [H | H]; [by left | right].
      intros Hin. apply H. apply list_elem_of_fmap in Hin as (x & [= ->] & Hx).
      exact Hx.
Qed.

Lemma migrate_unknown_version_applies_no_step_witness :
  migrate_to "1.2.0" Samples.doc_9_9_9 Samples.morning
  = Returned {| document := Samples.doc_9_9_9;
                migrated := bool_decide (version_in "nalt-protocol/9.9.9" ≠ Some "1.2.0") |}
      Samples.morning.
Proof.
  apply migrate_unknown_version_applies_no_step.
  - reflexivity.
  - left. change (Some "9.9.9" ∉ Some <$> versions).
    intros Hin. apply list_elem_of_fmap in Hin as (x & [= <-] & Hx).
    revert Hx. change ("9.9.9" ∉ versions).
    unfold versions. rewrite !not_elem_of_cons.
    repeat split; try discriminate. apply not_elem_of_nil.
Defined.

(** Only a string has a [match] method: a missing [spec_version], or one
    that is no string, makes [extractVersion] throw a [TypeError]. *)
Lemma migrate_without_version_text w doc t :
  (forall s, doc !! "spec_version" ≠ Some (JStr s)) ->
  migrate_to t doc w = Threw TypeError.
Proof.
  intros H. unfold migrate_to, extractVersion.
  destruct (doc !! "spec_version") as [[| | |s| |]|] eqn:E; try reflexivity.
  by destruct (H s).
Qed.

End Migrate.

(** ** Relocating fields

    Both implementations of the 1.1.1 to 1.2.0 step fold a table of
    [(old, new)] names over an entry.  The facts below hold for any table
    whose names are all different. *)

Section Relocation.
Implicit Types (m : gmap string json) (l : list (string * string)).

Lemma relocate_js_py m p :
  p.1 ≠ p.2 -> NALTMigrator.relocate m p = Py.relocate m p.
Proof.
  destruct p as [o n]; simpl; intros Hne.
  destruct (m !! o); [|reflexivity]. by rewrite delete_insert_ne.
Qed.

Lemma foldl_relocate_js_py l m :
  Forall (fun p => p.1 ≠ p.2) l ->
  foldl NALTMigrator.relocate m l = foldl Py.relocate m l.
Proof.
  intros Hl. revert m. induction Hl as [|p l Hp _ IH]; intros m; simpl.
  - reflexivity.
  - by rewrite relocate_js_py, IH.
Qed.

Lemma separate_cons o n l :
  NoDup (((o, n) :: l).*1 ++ ((o, n) :: l).*2) ->
  o ≠ n /\ (o ∉ l.*1) /\ (o ∉ l.*2) /\ (n ∉ l.*1) /\ (n ∉ l.*2)
  /\ NoDup (l.*1 ++ l.*2).
Proof.
  simpl. rewrite NoDup_cons, NoDup_app, NoDup_cons.
  rewrite !not_elem_of_app, !not_elem_of_cons.
  intros [(Ho1 & Hon & Ho2) (Hl1 & Hdisj & Hn2 & Hl2)].
  repeat split; auto.
  - intros Hn. apply (Hdisj n Hn). left.
  - apply NoDup_app. repeat split; auto.
    intros x Hx1 Hx2. apply (Hdisj x Hx1). by right.
Qed.

Lemma relocate_lookup_ne m o n k :
  k ≠ o -> k ≠ n -> Py.relocate m (o, n) !! k = m !! k.
Proof.
  intros Ho Hn. simpl. destruct (m !! o); [|reflexivity].
  by rewrite lookup_insert_ne, lookup_delete_ne.
Qed.

(** A field that is neither an old nor a new name is left as it is. *)
Lemma foldl_relocate_frame l m k :
  k ∉ l.*1 -> k ∉ l.*2 -> foldl Py.relocate m l !! k = m !! k.
Proof.
  revert m. induction l as [|[o n] l IH]; intros m H1 H2; [reflexivity|].
  simpl in H1, H2. apply not_elem_of_cons in H1 as [? ?].
  apply not_elem_of_cons in H2 as [? ?].
  cbn [foldl]. rewrite IH by assumption. by apply relocate_lookup_ne.
Qed.

Lemma foldl_relocate_absent l m k :
  m !! k = None -> k ∉ l.*2 -> foldl Py.relocate m l !! k = None.
Proof.
  revert m. induction l as [|[o n] l IH]; intros m Hk H2; [exact Hk|].
  simpl in H2. apply not_elem_of_cons in H2 as [Hn ?].
  cbn [foldl]. apply IH; [|assumption]. simpl.
  destruct (m !! o) eqn:Ho; [|exact Hk].
  rewrite lookup_insert_ne by congruence.
  destruct (decide (k = o)) as [-> | Hne].
  - apply lookup_delete_eq.
  - by rewrite lookup_delete_ne.
Qed.

(** Every old name is gone. *)
Lemma foldl_relocate_old l m o :
  NoDup (l.*1 ++ l.*2) -> o ∈ l.*1 -> foldl Py.relocate m l !! o = None.
Proof.
  revert m. induction l as [|[o1 n1] l IH]; intros m Hnd Ho.
  - by apply elem_of_nil in Ho.
  - apply separate_cons in Hnd as (Hon & Ho1 & Ho2 & Hn1 & Hn2 & Hnd).
    cbn [foldl]. simpl in Ho. apply elem_of_cons in Ho as [-> | Ho].
    + apply foldl_relocate_absent; [|assumption]. simpl.
      destruct (m !! o1) eqn:E; [|exact E].
      rewrite lookup_insert_ne by congruence. apply lookup_delete_eq.
    + by apply IH.
Qed.

(** The value of an old field is under its new name. *)
Lemma foldl_relocate_moved l m o n v :
  NoDup (l.*1 ++ l.*2) -> (o, n) ∈ l -> m !! o = Some v ->
  foldl Py.relocate m l !! n = Some v.
Proof.
  revert m. induction l as [|[o1 n1] l IH]; intros m Hnd Hin Hv.
  - by apply elem_of_nil in Hin.
  - apply separate_cons in Hnd as (Hon & Ho1 & Ho2 & Hn1 & Hn2 & Hnd).
    cbn [foldl]. apply elem_of_cons in Hin as [[= -> ->] | Hin].
    + rewrite foldl_relocate_frame by assumption. simpl. rewrite Hv.
      apply lookup_insert_eq.
    + assert (o ∈ l.*1) by (apply (list_elem_of_fmap_2 fst _ (o, n)); exact Hin).
      assert (n ∈ l.*2) by (apply (list_elem_of_fmap_2 snd _ (o, n)); exact Hin).
      apply IH; [assumption .. |].
      rewrite relocate_lookup_ne; [exact Hv | congruence ..].
Qed.

(** With no old field to move, what was under the new name stays. *)
Lemma foldl_relocate_kept l m o n :
  NoDup (l.*1 ++ l.*2) -> (o, n) ∈ l -> m !! o = None ->
  foldl Py.relocate m l !! n = m !! n.
Proof.
  revert m. induction l as [|[o1 n1] l IH]; intros m Hnd Hin Hv.
  - by apply elem_of_nil in Hin.
  - apply separate_cons in Hnd as (Hon & Ho1 & Ho2 & Hn1 & Hn2 & Hnd).
    cbn [foldl]. apply elem_of_cons in Hin as [[= -> ->] | Hin].
    + rewrite foldl_relocate_frame by assumption. simpl. by rewrite Hv.
    + assert (o ∈ l.*1) by (apply (list_elem_of_fmap_2 fst _ (o, n)); exact Hin).
      assert (n ∈ l.*2) by (apply (list_elem_of_fmap_2 snd _ (o, n)); exact Hin).
      rewrite IH; [| assumption | assumption |].
      * apply relocate_lookup_ne; congruence.
      * rewrite relocate_lookup_ne; [exact Hv | congruence ..].
Qed.

(** What stood under a new name does not reach the result when the old
    field is there to replace it. *)
Lemma foldl_relocate_overwrites l m o n v x y :
  NoDup (l.*1 ++ l.*2) -> (o, n) ∈ l -> m !! o = Some v ->
  foldl Py.relocate (<[n := x]> m) l = foldl Py.relocate (<[n := y]> m) l.
Proof.
  intros Hnd Hin Hv. apply map_eq. intros k.
  assert (Hdisj : forall a, a ∈ l.*1 -> a ∈ l.*2 -> False).
  { apply NoDup_app in Hnd as (_ & Hd & _). exact Hd. }
  assert (Ho1 : o ∈ l.*1) by (apply (list_elem_of_fmap_2 fst _ (o, n)); exact Hin).
  assert (Hn2 : n ∈ l.*2) by (apply (list_elem_of_fmap_2 snd _ (o, n)); exact Hin).
  assert (Hon : o ≠ n) by (intros ->; eauto).
  destruct (decide (k ∈ l.*1)) as [Hk1 | Hk1].
  { by rewrite !foldl_relocate_old. }
  destruct (decide (k ∈ l.*2)) as [Hk2 | Hk2].
  - apply list_elem_of_fmap in Hk2 as ([o' k'] & -> & Hin'). simpl in *.
    assert (Ho' : o' ∈ l.*1)
      by (apply (list_elem_of_fmap_2 fst _ (o', k')); exact Hin').
    assert (Ho'n : o' ≠ n) by (intros ->; eauto).
    destruct (m !! o') as [v'|] eqn:E.
    + rewrite !(foldl_relocate_moved l _ o' k' v'); auto;
        by rewrite lookup_insert_ne.
    + rewrite !(foldl_relocate_kept l _ o' k'); auto;
        try (by rewrite lookup_insert_ne).
      destruct (decide (k' = n)) as [-> | Hne].
      * (* the same new name has one old name *)
        assert (o' = o) as ->.
        { apply NoDup_app in Hnd as (_ & _ & Hnd2).
          apply list_elem_of_lookup in Hin as [i Hi].
          apply list_elem_of_lookup in Hin' as [j Hj].
          assert (i = j) as ->.
          { eapply (NoDup_lookup (l.*2) i j n); [exact Hnd2 | |];
              rewrite list_lookup_fmap; [by rewrite Hi | by rewrite Hj]. }
          congruence. }
        congruence.
      * by rewrite !lookup_insert_ne.
  - rewrite !foldl_relocate_frame by assumption.
    rewrite !lookup_insert_ne; [reflexivity | congruence ..].
Qed.

Lemma fieldMappings_separate :
  NoDup (NALTMigrator.fieldMappings.*1 ++ NALTMigrator.fieldMappings.*2).
Proof. refine (bool_decide_unpack _ _). vm_compute. exact I. Qed.

Lemma fieldMappings_distinct :
  Forall (fun p => p.1 ≠ p.2) NALTMigrator.fieldMappings.
Proof. repeat constructor; discriminate. Qed.

Lemma field_mappings_same : Py.field_mappings = NALTMigrator.fieldMappings.
Proof. reflexivity. Qed.

End Relocation.

(** ** The 1.1.1 to 1.2.0 step *)

Section SlimCore.
Import JS NALTMigrator Slim.

Lemma named_fields_outside_table k :
  k ∈ core_fields ++ kept_extensions ->
  (k ∉ fieldMappings.*1) /\ (k ∉ fieldMappings.*2).
Proof.
  intros H. cbv [core_fields kept_extensions app] in H.
  repeat (apply elem_of_cons in H as [-> | H]);
    [split; refine (bool_decide_unpack _ _); vm_compute; exact I .. |].
  by apply elem_of_nil in H.
Qed.

Lemma foldl_relocate_entry_relocated m :
  entry_relocated m (foldl Py.relocate m fieldMappings).
Proof.
  pose proof fieldMappings_separate as Hnd.
  split; [|split].
  - intros old new Hin. split.
    + apply foldl_relocate_old; [exact Hnd |].
      apply (list_elem_of_fmap_2 fst _ (old, new)); exact Hin.
    + intros v Hv. by apply (foldl_relocate_moved _ _ old).
  - intros k Hk. apply named_fields_outside_table in Hk as [H1 H2].
    by apply foldl_relocate_frame.
  - intros k H1 H2. by apply foldl_relocate_frame.
Qed.

Lemma migrate_entry_1_1_1_moved e : migrate_entry_1_1_1 e = moved_entry e.
Proof.
  unfold migrate_entry_1_1_1, moved_entry.
  by rewrite (foldl_relocate_js_py _ _ fieldMappings_distinct).
Qed.

Lemma py_migrate_entry_object m w :
  Py.migrate_entry (JObj m) w = Returned (moved_entry (JObj m)) w.
Proof. reflexivity. Qed.

Lemma py_mapM_migrate_entry es w :
  Forall (fun e => exists m, e = JObj m) es ->
  mapM Py.migrate_entry es w = Returned (moved_entry <$> es) w.
Proof.
  intros Hes. apply mapM_pure. eapply Forall_impl; [exact Hes|].
  intros e [m ->] w'. reflexivity.
Qed.

Lemma moved_entries_relocated es :
  Forall (fun e => exists m, e = JObj m) es ->
  entries_relocated es (moved_entry <$> es).
Proof.
  intros Hes. unfold entries_relocated.
  induction Hes as [|e es [m ->] _ IH]; constructor; [|exact IH].
  exists m, (foldl Py.relocate m fieldMappings).
  split; [reflexivity|]. split; [reflexivity|].
  apply foldl_relocate_entry_relocated.
Qed.

(** The Python script on a shaped document. *)
Lemma py_step_relocates w doc :
  shaped doc ->
  exists out w',
    Py.migrate_document doc w = Returned out w'
    /\ document_relocated doc out
    /\ out !! "x_migrated_at" = Some (JStr (clock w (ticks w) +:+ "Z")).
Proof.
  intros [Hmeta (es & Hes & Hobj)].
  unfold Py.migrate_document.
  set (d1 := match doc !! "signature" with Some v => _ | None => _ end).
  assert (Hd1 : forall k, k ≠ "signature" -> k ≠ "x_signature" -> d1 !! k = doc !! k).
  { intros k H1 H2. subst d1. destruct (doc !! "signature");
      [by rewrite lookup_insert_ne, lookup_delete_ne | reflexivity]. }
  assert (Hsig : d1 !! "signature" = None).
  { subst d1. destruct (doc !! "signature") eqn:E; [|exact E].
    rewrite lookup_insert_ne by done. apply lookup_delete_eq. }
  assert (Hxsig : forall v, doc !! "signature" = Some v -> d1 !! "x_signature" = Some v).
  { intros v Hv. subst d1. rewrite Hv. apply lookup_insert_eq. }
  clearbody d1.
  rewrite (Hd1 "meta") by done.
  assert (Hrest : forall d2,
    (forall k, k ≠ "meta" -> k ≠ "x_utc_offset_minutes" -> d2 !! k = d1 !! k) ->
    (forall meta off, doc !! "meta" = Some (JObj meta) ->
        meta !! "x_utc_offset_minutes" = Some off ->
        d2 !! "x_utc_offset_minutes" = Some off
        /\ d2 !! "meta" = Some (JObj (delete "x_utc_offset_minutes" meta))) ->
    exists out w',
      (Py.iterate (default (JArr []) (d2 !! "entries"))
        ≫= λ entries, mapM Py.migrate_entry entries
        ≫= λ entries', read_clock
        ≫= λ now, ret (<["x_migrated_at" := JStr (now +:+ "Z")]>
                        (<["spec_version" := JStr "nalt-protocol/1.2.0"]>
                           (<["entries" := JArr entries']> d2)))) w
      = Returned out w'
      /\ document_relocated doc out
      /\ out !! "x_migrated_at" = Some (JStr (clock w (ticks w) +:+ "Z"))).
  { intros d2 Hd2 Hoff.
    rewrite Hd2, Hd1, Hes by done. simpl. run.
    rewrite py_mapM_migrate_entry by exact Hobj. simpl.
    eexists _, _. split; [reflexivity|]. split; [|apply lookup_insert_eq].
    unfold document_relocated.
    rewrite !(lookup_insert_ne _ "x_migrated_at") by done.
    rewrite lookup_insert_eq.
    rewrite !(lookup_insert_ne _ "spec_version") by done.
    rewrite lookup_insert_eq.
    rewrite !(lookup_insert_ne _ "entries") by done.
    split; [reflexivity|]. split; [by rewrite Hd2|].
    split; [intros v Hv; rewrite Hd2 by done; by apply Hxsig|].
    split; [exact Hoff|].
    exists es, (moved_entry <$> es). split; [exact Hes|]. split; [reflexivity|].
    by apply moved_entries_relocated. }
  destruct Hmeta as [Hm | [meta Hm]]; rewrite Hm; unfold default, from_option, id;
    cbn [Py.contains]; run.
  - rewrite lookup_empty. cbn. apply Hrest; [done|]. intros meta off. congruence.
  - destruct (meta !! "x_utc_offset_minutes") as [off|] eqn:Eoff; cbn.
    + apply Hrest.
      * intros k H1 H2. by rewrite !lookup_insert_ne.
      * intros meta' off' Hm' Hoff'. rewrite Hm in Hm'. injection Hm' as <-.
        rewrite Eoff in Hoff'. injection Hoff' as <-.
        rewrite lookup_insert_eq, lookup_insert_ne by done.
        by rewrite lookup_insert_eq.
    + apply Hrest; [done|]. intros meta' off' Hm' Hoff'.
      rewrite Hm in Hm'. injection Hm' as <-. congruence.
Qed.

(** [migrateFrom_1_1_1] on a shaped document whose [signature], when
    there is one, is truthy (an object is). *)
Lemma js_step_relocates w doc :
  shaped doc ->
  (forall v, doc !! "signature" = Some v -> truthy v = true) ->
  exists out w',
    migrateFrom_1_1_1 doc w = Returned out w'
    /\ document_relocated doc out
    /\ out !! "x_migration" = Some (x_migration "1.1.1" "1.2.0" (clock w (ticks w)))
    /\ out !! "x_migrated_at" = doc !! "x_migrated_at".
Proof.
  intros [Hmeta (es & Hes & Hobj)] Htruthy.
  unfold migrateFrom_1_1_1.
  set (d0 := <["spec_version" := JStr "nalt-protocol/1.2.0"]> doc).
  assert (Hd0 : forall k, k ≠ "spec_version" -> d0 !! k = doc !! k).
  { intros k Hk. subst d0. by rewrite lookup_insert_ne. }
  set (d1 := match d0 !! "signature" with Some v => _ | None => _ end).
  assert (Hd1 : forall k, k ≠ "signature" -> k ≠ "x_signature" -> d1 !! k = d0 !! k).
  { intros k H1 H2. subst d1. destruct (d0 !! "signature") as [v|]; [|reflexivity].
    destruct (truthy v); [|reflexivity].
    by rewrite lookup_delete_ne, lookup_insert_ne. }
  assert (Hsig : d1 !! "signature" = None).
  { subst d1. rewrite Hd0 by done. destruct (doc !! "signature") as [v|] eqn:E.
    - rewrite (Htruthy v eq_refl). apply lookup_delete_eq.
    - by rewrite Hd0. }
  assert (Hxsig : forall v, doc !! "signature" = Some v -> d1 !! "x_signature" = Some v).
  { intros v Hv. subst d1. rewrite Hd0, Hv by done. rewrite (Htruthy v Hv).
    rewrite lookup_delete_ne by done. apply lookup_insert_eq. }
  clearbody d1.
  set (d2 := match d1 !! "meta" with Some (JObj meta) => _ | _ => d1 end).
  assert (Hd2 : forall k, k ≠ "meta" -> k ≠ "x_utc_offset_minutes" -> d2 !! k = d1 !! k).
  { intros k H1 H2. subst d2. destruct (d1 !! "meta") as [[| | | | |meta]|]; try reflexivity.
    destruct (meta !! "x_utc_offset_minutes"); [|reflexivity].
    by rewrite !lookup_insert_ne. }
  assert (Hoff : forall meta off, doc !! "meta" = Some (JObj meta) ->
            meta !! "x_utc_offset_minutes" = Some off ->
            d2 !! "x_utc_offset_minutes" = Some off
            /\ d2 !! "meta" = Some (JObj (delete "x_utc_offset_minutes" meta))).
  { intros meta off Hm Hoff. subst d2. rewrite Hd1, Hd0, Hm, Hoff by done.
    rewrite lookup_insert_eq, lookup_insert_ne by done.
    by rewrite lookup_insert_eq. }
  clearbody d2.
  rewrite Hd2, Hd1, Hd0, Hes by done. run. cbn.
  eexists _, _. split; [reflexivity|].
  rewrite lookup_insert_eq.
  rewrite !(lookup_insert_ne _ "x_migration") by done.
  rewrite (lookup_insert_ne _ "entries") by done.
  rewrite Hd2, Hd1, Hd0 by done.
  split; [|done].
  unfold document_relocated.
  rewrite !(lookup_insert_ne _ "x_migration") by done.
  rewrite lookup_insert_eq.
  rewrite !(lookup_insert_ne _ "entries") by done.
  split; [by rewrite Hd2, Hd1; subst d0; [rewrite lookup_insert_eq|..]|].
  split; [by rewrite Hd2|].
  split; [intros v Hv; rewrite Hd2 by done; by apply Hxsig|].
  split; [exact Hoff|].
  exists es, (moved_entry <$> es). split; [exact Hes|]. split.
  - f_equal. f_equal. apply list_fmap_ext. intros i e _. apply migrate_entry_1_1_1_moved.
  - by apply moved_entries_relocated.
Qed.

(** C3, as the claim states it, fails for [migrateFrom_1_1_1]: its output
    has no [x_migrated_at]; the timestamp is inside [x_migration]. *)
Lemma migrateFrom_1_1_1_attaches_no_x_migrated_at :
  exists out w',
    migrateFrom_1_1_1 Samples.doc_1_1_1 Samples.morning = Returned out w'
    /\ out !! "x_migrated_at" = None
    /\ out !! "x_migration"
       = Some (x_migration "1.1.1" "1.2.0" "2025-07-23T08:00:00").
Proof.
  eexists _, _. split; [vm_compute; reflexivity|].
  split; vm_compute; reflexivity.
Qed.

(** C3, amended.  On a document whose [meta] is an object (or absent) and
    whose [entries] are objects, the 1.1.1 to 1.2.0 step moves
    [signature] to [x_signature], [meta.x_utc_offset_minutes] to the
    document's [x_utc_offset_minutes], and in every entry [summary],
    [moods], [tags], [entities], [end_date], [created_at] to the same
    names with an [x_] prefix: the value is under the new name and the
    old name is gone; the core fields, [x_relations] and [x_due_date]
    are unchanged; [spec_version] becomes [nalt-protocol/1.2.0].  The
    Python script [migrate_document] attaches the timestamp as
    [x_migrated_at]; [NALTMigrator.migrateFrom_1_1_1] (which moves a
    [signature] that is truthy) attaches it inside an [x_migration] object
    and adds no [x_migrated_at]. *)
Theorem step_1_1_1_to_1_2_0_relocates w doc :
  shaped doc ->
  (exists out w',
     Py.migrate_document doc w = Returned out w'
     /\ document_relocated doc out
     /\ out !! "x_migrated_at" = Some (JStr (clock w (ticks w) +:+ "Z")))
  /\ ((forall v, doc !! "signature" = Some v -> truthy v = true) ->
      exists out w',
        migrateFrom_1_1_1 doc w = Returned out w'
        /\ document_relocated doc out
        /\ out !! "x_migration"
           = Some (x_migration "1.1.1" "1.2.0" (clock w (ticks w)))
        /\ out !! "x_migrated_at" = doc !! "x_migrated_at").
Proof.
  intros Hshape. split.
  - by apply py_step_relocates.
  - intros Htruthy. by apply js_step_relocates.
Qed.

Lemma shaped_doc_1_1_1 : shaped Samples.doc_1_1_1.
Proof.
  split.
  - right. eexists. vm_compute. reflexivity.
  - eexists. split; [vm_compute; reflexivity|].
    repeat constructor. eexists. reflexivity.
Qed.

Lemma step_1_1_1_to_1_2_0_relocates_witness :
  (exists out w',
     Py.migrate_document Samples.doc_1_1_1 Samples.morning = Returned out w'
     /\ document_relocated Samples.doc_1_1_1 out
     /\ out !! "x_migrated_at"
        = Some (JStr (clock Samples.morning (ticks Samples.morning) +:+ "Z")))
  /\ ((forall v, Samples.doc_1_1_1 !! "signature" = Some v -> truthy v = true) ->
      exists out w',
        migrateFrom_1_1_1 Samples.doc_1_1_1 Samples.morning = Returned out w'
        /\ document_relocated Samples.doc_1_1_1 out
        /\ out !! "x_migration"
           = Some (x_migration "1.1.1" "1.2.0"
                     (clock Samples.morning (ticks Samples.morning)))
        /\ out !! "x_migrated_at" = Samples.doc_1_1_1 !! "x_migrated_at").
Proof.
  apply step_1_1_1_to_1_2_0_relocates. exact shaped_doc_1_1_1.
Defined.

(** C10.  When an entry holds both a field the step moves and a field
    under the new name (both [summary] and [x_summary], say), the step
    puts the moved value under the new name and removes the old name;
    the value the extension field had is lost: whatever it was, the
    entry after the step is the same.  Both [migrateFrom_1_1_1] and the
    Python [migrate_entry] do so. *)
Theorem relocation_overwrites_extension_field (entry : gmap string json)
    old new v x :
  (old, new) ∈ fieldMappings ->
  entry !! old = Some v ->
  entry !! new = Some x ->
  exists out,
    out !! new = Some v
    /\ out !! old = None
    /\ (forall y, migrate_entry_1_1_1 (JObj (<[new := y]> entry)) = JObj out)
    /\ migrate_entry_1_1_1 (JObj entry) = JObj out
    /\ (forall y w,
          Py.migrate_entry (JObj (<[new := y]> entry)) w = Returned (JObj out) w)
    /\ (forall w, Py.migrate_entry (JObj entry) w = Returned (JObj out) w).
Proof.
  intros Hin Hold Hnew.
  pose proof fieldMappings_separate as Hnd.
  exists (foldl Py.relocate entry fieldMappings).
  assert (Hany : forall y,
    foldl Py.relocate (<[new := y]> entry) fieldMappings
    = foldl Py.relocate entry fieldMappings).
  { intros y. rewrite <- (insert_id entry new x Hnew) at 2.
    by apply (foldl_relocate_overwrites _ _ old new v). }
  split; [by apply (foldl_relocate_moved _ _ old)|].
  split.
  { apply foldl_relocate_old; [exact Hnd|].
    apply (list_elem_of_fmap_2 fst _ (old, new)); exact Hin. }
  split; [intros y; rewrite migrate_entry_1_1_1_moved; unfold moved_entry;
          cbn [spread]; by rewrite Hany|].
  split; [by rewrite migrate_entry_1_1_1_moved|].
  split; [intros y w; rewrite py_migrate_entry_object; unfold moved_entry;
          cbn [spread]; by rewrite Hany|].
  intros w. by rewrite py_migrate_entry_object.
Qed.

Lemma relocation_overwrites_extension_field_witness :
  exists out,
    out !! "x_summary" = Some (JStr "new")
    /\ out !! "summary" = None
    /\ (forall y, migrate_entry_1_1_1
                    (JObj (<["x_summary" := y]>
                             (list_to_map [("summary", JStr "new");
                                           ("x_summary", JStr "old")])))
                  = JObj out)
    /\ migrate_entry_1_1_1
         (JObj (list_to_map [("summary", JStr "new"); ("x_summary", JStr "old")]))
       = JObj out
    /\ (forall y w,
          Py.migrate_entry
            (JObj (<["x_summary" := y]>
                     (list_to_map [("summary", JStr "new");
                                   ("x_summary", JStr "old")]))) w
          = Returned (JObj out) w)
    /\ (forall w,
          Py.migrate_entry
            (JObj (list_to_map [("summary", JStr "new"); ("x_summary", JStr "old")])) w
          = Returned (JObj out) w).
Proof.
  apply (relocation_overwrites_extension_field _ "summary" "x_summary"
           (JStr "new") (JStr "old")).
  - unfold fieldMappings. rewrite elem_of_cons. by left.
  - reflexivity.
  - reflexivity.
Defined.

End SlimCore.

(** ** Two runs of a migration *)

Section Determinism.
Import JS NALTMigrator Provenance.
Implicit Types (d a b : gmap string json).














(** [migrateFrom_1_0_0], the step [migrate] never reaches, draws the
    [document_id] it generates from [Math.random]. *)
Lemma migrateFrom_1_0_0_depends_on_the_dice :
  exists d1 d2 w1 w2,
    migrateFrom_1_0_0 Samples.doc_1_0_0 Samples.morning = Returned d1 w1
    /\ migrateFrom_1_0_0 Samples.doc_1_0_0 Samples.loaded = Returned d2 w2
    /\ d1 !! "document_id" = Some (JStr "88888888-8888-4888-8888-888888888888")
    /\ d2 !! "document_id" = Some (JStr "44444444-4444-4444-8444-444444444444").
Proof.
  eexists _, _, _, _.
  split; [vm_compute; reflexivity|].
  split; [vm_compute; reflexivity|].
  split; vm_compute; reflexivity.
Qed.


End Determinism.

(** ** The migration path and the table of migrations *)

Section Path.
Import JS NALTMigrator Provenance.

(** The path lists the versions after the source, and the table is keyed
    by the version a document comes from: from 1.0.0 to 1.2.0 [migrate]
    runs [migrateFrom_1_1_0] and [migrateFrom_1_1_1], and never
    [migrateFrom_1_0_0]. *)
Lemma migrate_from_1_0_0_to_1_2_0 doc s w :
  doc !! "spec_version" = Some (JStr s) ->
  version_in s = Some "1.0.0" ->
  migrate_to "1.2.0" doc w
  = (d ← migrateFrom_1_1_0 doc;
     d' ← migrateFrom_1_1_1 d;
     mret {| document := d'; migrated := true |}) w.
Proof.
  intros Hs Hv. unfold migrate_to, extractVersion. rewrite Hs, Hv.
  run. destruct (decide (Some "1.0.0" = Some "1.2.0")) as [Heq | _];
    [discriminate Heq|].
  change (getMigrationPath (Some "1.0.0") (Some "1.2.0"))
    with ["1.1.0"; "1.1.1"; "1.2.0"].
  cbn [foldM]. run.
  change (migrate_step doc "1.1.0") with (migrateFrom_1_1_0 doc).
  destruct (migrateFrom_1_1_0 doc w) as [e | d w']; [reflexivity|].
  change (migrate_step d "1.1.1") with (migrateFrom_1_1_1 d).
  destruct (migrateFrom_1_1_1 d w') as [e | d' w'']; reflexivity.
Qed.

(** From 1.1.1 to 1.2.0 the path is the one version 1.2.0, whose entry in
    the table is [null]: no step runs. *)
Lemma migrate_from_1_1_1_to_1_2_0 doc s w :
  doc !! "spec_version" = Some (JStr s) ->
  version_in s = Some "1.1.1" ->
  migrate_to "1.2.0" doc w = Returned {| document := doc; migrated := true |} w.
Proof.
  intros Hs Hv. unfold migrate_to, extractVersion. rewrite Hs, Hv.
  run. destruct (decide (Some "1.1.1" = Some "1.2.0")) as [Heq | _];
    [discriminate Heq | reflexivity].
Qed.

(** Three calls of [migrate], to 1.1.0, to 1.1.1 and to 1.2.0, miss the
    first step as the direct call does: the first call runs
    [migrateFrom_1_1_0], which leaves a v1.2.0 document, and the other two
    run nothing.  At the sample the two results agree but for the stamp,
    and both keep [plain_text]. *)
Lemma migrate_chain_skips_the_first_step_too :
  exists direct chained w1 w2,
    migrate_to "1.2.0" Samples.doc_1_0_0 Samples.morning
    = Returned {| document := direct; migrated := true |} w1
    /\ migrate_chain Samples.doc_1_0_0 Samples.morning
       = Returned {| document := chained; migrated := false |} w2
    /\ delete "x_migration" direct = delete "x_migration" chained
    /\ entry_field chained 0 "content_format" = Some (JStr "plain_text").
Proof.
  eexists _, _, _, _.
  split; [vm_compute; reflexivity|].
  split; [vm_compute; reflexivity|].
  split; vm_compute; reflexivity.
Qed.

(** C2 at a v1.0.0 document in the legacy format [plain_text] with no
    [document_id].  Migrated directly to 1.2.0 its entry is still in
    [plain_text] and it has no [document_id]; the three single-step
    migrations give [text/plain] and a generated [document_id].  The two
    documents differ in more than the provenance stamp. *)
Theorem direct_migration_skips_the_first_step :
  exists direct chained w1 w2,
    migrate_to "1.2.0" Samples.doc_1_0_0 Samples.morning
    = Returned {| document := direct; migrated := true |} w1
    /\ single_steps Samples.doc_1_0_0 Samples.morning = Returned chained w2
    /\ entry_field direct 0 "content_format" = Some (JStr "plain_text")
    /\ entry_field chained 0 "content_format" = Some (JStr "text/plain")
    /\ direct !! "document_id" = None
    /\ chained !! "document_id"
       = Some (JStr "88888888-8888-4888-8888-888888888888")
    /\ delete "x_migration" direct ≠ delete "x_migration" chained.
Proof.
  eexists _, _, _, _.
  split; [vm_compute; reflexivity|].
  split; [vm_compute; reflexivity|].
  repeat (split; [vm_compute; reflexivity|]).
  intros H. apply (f_equal (fun d => d !! "document_id")) in H.
  vm_compute in H. discriminate H.
Qed.

End Path.

(** ** Regular expressions *)

Section RegexFacts.
Import Regex.

Lemma dead_nullable r : dead r -> nullable r = false.
Proof.
  induction 1 as [|r1 r2 _ IH|r1 r2 _ IH1 _ IH2]; simpl;
    [reflexivity | by rewrite IH | by rewrite IH1, IH2].
Qed.

Lemma dead_deriv c r : dead r -> dead (deriv c r).
Proof.
  induction 1 as [|r1 r2 H IH|r1 r2 _ IH1 _ IH2]; simpl.
  - constructor.
  - rewrite (dead_nullable _ H). by constructor.
  - by constructor.
Qed.

Lemma dead_derivs s r : dead r -> nullable (derivs s r) = false.
Proof.
  revert r. induction s as [|c s IH]; intros r H; simpl.
  - by apply dead_nullable.
  - apply IH. by apply dead_deriv.
Qed.

Lemma accepts_all_nullable r : accepts_all r -> nullable r = true.
Proof.
  induction 1 as [r H|r1 r2 _ IH]; simpl.
  - by rewrite H.
  - rewrite IH. apply orb_true_r.
Qed.

Lemma accepts_all_deriv c r : accepts_all r -> accepts_all (deriv c r).
Proof.
  induction 1 as [r H|r1 r2 _ IH]; simpl.
  - rewrite H. apply all_Alt. by apply all_Seq.
  - by apply all_Alt.
Qed.

Lemma accepts_all_derivs s r : accepts_all r -> nullable (derivs s r) = true.
Proof.
  revert r. induction s as [|c s IH]; intros r H; simpl.
  - by apply accepts_all_nullable.
  - apply IH. by apply accepts_all_deriv.
Qed.

(** The pattern [^x_] matches the names that begin with [x_]. *)
Lemma x_pattern_spec k :
  full_match (Seq (lit "x_") (Star any)) k = true
  <-> exists rest, k = "x_" +:+ rest.
Proof.
  unfold full_match.
  fold (derivs (list_ascii_of_string k) (Seq (lit "x_") (Star any))).
  destruct k as [|c [|c2 k]].
  - split; [discriminate | intros [rest Hr]; discriminate Hr].
  - split; [|intros [rest Hr]; discriminate Hr].
    cbn [list_ascii_of_string derivs fold_left lit deriv nullable char andb].
    destruct (Ascii.eqb "x" c); cbn; discriminate.
  - cbn [list_ascii_of_string derivs fold_left lit deriv nullable char andb].
    destruct (Ascii.eqb_spec "x"%char c) as [<- | Hc].
    + cbn [deriv nullable andb orb char].
      destruct (Ascii.eqb_spec "_"%char c2) as [<- | Hc2].
      * split; [intros _; by exists k|intros _].
        apply accepts_all_derivs. by apply all_Seq.
      * split; [|intros [rest Hr];
                 change ("x_" +:+ rest) with (String "x" (String "_" rest)) in Hr;
                 congruence].
        rewrite dead_derivs; [discriminate|].
        repeat constructor.
    + split; [|intros [rest Hr];
                 change ("x_" +:+ rest) with (String "x" (String "_" rest)) in Hr;
                 congruence].
      rewrite dead_derivs; [discriminate|]. repeat constructor.
Qed.

End RegexFacts.

(** ** Ajv *)


Section AjvFacts.
Import Regex Ajv.

Lemma check_in s path data e :
  In e (check s path data) <->
  exists k, In k s /\ In e (check_keyword (declared_of s) (patterns_of s) path data k).
Proof. unfold check. apply in_flat_map. Qed.

Lemma sub_schema_failed s declared pats path data e :
  Forall names_failed s ->
  In e (flat_map (check_keyword declared pats path data) s) ->
  In (failed e) (flat_map failing_keywords s).
Proof.
  intros Hs He. apply in_flat_map in He as (k & Hk & He).
  apply in_flat_map. exists k. split; [exact Hk|].
  rewrite List.Forall_forall in Hs. by eapply Hs.
Qed.

(** An error names a keyword of the schema that can fail. *)
Lemma check_keyword_failed k : names_failed k.
Proof.
  unfold names_failed.
  induction k using keyword_nested_ind; intros declared pats path data e He;
    cbn [check_keyword failing_keywords] in *.
  all: try (repeat match goal with
                   | H : In _ (match ?x with _ => _ end) |- _ => destruct x
                   | H : In _ (if ?x then _ else _) |- _ => destruct x
                   end;
            simpl in He; try contradiction;
            destruct He as [<- | []]; simpl; auto; fail).
  - (* items *)
    destruct data; try contradiction.
    apply in_concat in He as (es & Hes & He).
    apply list_elem_of_In, elem_of_lookup_imap in Hes as (i & x & -> & _).
    by eapply sub_schema_failed.
  - (* required *)
    destruct data; try contradiction.
    apply in_flat_map in He as (name & _ & He).
    destruct (_ !! name); [contradiction|]. destruct He as [<- | []]. by left.
  - (* properties *)
    destruct data; try contradiction.
    apply in_flat_map in He as (p & Hp & He).
    apply in_flat_map. exists p. split; [exact Hp|].
    rewrite List.Forall_forall in H. specialize (H p Hp).
    destruct (_ !! p.1); [|contradiction]. by eapply sub_schema_failed.
  - (* patternProperties *)
    destruct data; try contradiction.
    apply in_flat_map in He as (p & Hp & He).
    apply in_flat_map. exists p. split; [exact Hp|].
    rewrite List.Forall_forall in H. specialize (H p Hp).
    apply in_flat_map in He as (kv & _ & He).
    destruct (full_match p.1 kv.1); [|contradiction].
    by eapply sub_schema_failed.
  - (* additionalProperties *)
    destruct data; try contradiction. destruct a; [contradiction|].
    apply in_flat_map in He as (kv & _ & He).
    destruct (is_additional _ _ _); [|contradiction].
    destruct He as [<- | []]. by left.
  - (* additionalProperties with a schema *)
    destruct data; try contradiction.
    apply in_flat_map in He as (kv & _ & He).
    destruct (is_additional _ _ _); [|contradiction].
    by eapply sub_schema_failed.
Qed.

Lemma check_failed s path data e :
  In e (check s path data) -> In (failed e) (failing_keywords_of s).
Proof.
  intros He. eapply sub_schema_failed; [|exact He].
  apply List.Forall_forall. intros k _. apply check_keyword_failed.
Qed.



(** *** An error of a part is an error of the whole *)

Lemma check_property s path (m : gmap string json) ps name sub v e :
  In (properties ps) s ->
  In (name, sub) ps ->
  m !! name = Some v ->
  In e (check sub (child path name) v) ->
  In e (check s path (JObj m)).
Proof.
  intros Hs Hps Hv He. apply check_in. exists (properties ps).
  split; [exact Hs|]. cbn [check_keyword].
  apply in_flat_map. exists (name, sub). split; [exact Hps|].
  cbn. rewrite Hv. exact He.
Qed.

Lemma check_item s path (l : list json) sub i x e :
  In (items sub) s ->
  l !! i = Some x ->
  In e (check sub (child path (pretty i)) x) ->
  In e (check s path (JArr l)).
Proof.
  intros Hs Hx He. apply check_in. exists (items sub).
  split; [exact Hs|]. cbn [check_keyword].
  apply in_concat. exists (check sub (child path (pretty i)) x).
  split; [|exact He].
  apply list_elem_of_In, elem_of_lookup_imap. by exists i, x.
Qed.

Lemma check_type s path t data :
  In (type_ t) s -> has_type t data = false ->
  In (Error path "type" (type_text t)) (check s path data).
Proof.
  intros Hs Ht. apply check_in. exists (type_ t). split; [exact Hs|].
  cbn [check_keyword]. rewrite Ht. by left.
Qed.

End AjvFacts.

(** ** Validation *)

Section Validation.
Import Regex Ajv Schemas JS NALTValidator Places.

Lemma additional_in_closed_object s path (m : gmap string json) k v :
  In (additionalProperties false) s ->
  m !! k = Some v ->
  ~ In k (declared_of s) ->
  Forall (fun r => full_match r k = false) (patterns_of s) ->
  In (Error path "additionalProperties" k) (check s path (JObj m)).
Proof.
  intros Hs Hk Hdecl Hpats. apply check_in.
  exists (additionalProperties false). split; [exact Hs|].
  cbn [check_keyword]. apply in_flat_map. exists (k, v). split.
  - apply list_elem_of_In. by apply elem_of_map_to_list.
  - cbn. unfold is_additional.
    assert (existsb (String.eqb k) (declared_of s) = false) as ->.
    { apply not_true_is_false. intros H. apply existsb_exists in H as (x & Hx & Heq).
      apply String.eqb_eq in Heq as <-. contradiction. }
    assert (existsb (fun r => full_match r k) (patterns_of s) = false) as ->.
    { apply not_true_is_false. intros H. apply existsb_exists in H as (r & Hr & Hm).
      rewrite List.Forall_forall in Hpats. rewrite (Hpats r Hr) in Hm. discriminate. }
    by left.
Qed.

Lemma validate_first_error s data e :
  In e (check s "" data) -> Ajv.validate false s data ≠ [].
Proof.
  unfold Ajv.validate. destruct (check s "" data); [contradiction|discriminate].
Qed.

Lemma not_conforms version s data e :
  CLI.schema_file version = Some s ->
  In e (check s "" data) ->
  exists errors, CLI.validateNALTProtocol version data = CLI.DoesNotConform errors.
Proof.
  intros Hs He. unfold CLI.validateNALTProtocol. rewrite Hs.
  pose proof (validate_first_error s data e He) as Hne.
  destruct (Ajv.validate false s data) as [|e' es]; [contradiction|]. by eexists.
Qed.

(** C7.  When an object of a document, an entry or [meta], holds a field
    that the v1.0.0 schema does not name and that does not begin with
    [x_], validation of the document under v1.0.0 fails, with an
    [additionalProperties] error at that object; under 1.1.0, 1.1.1 and
    1.2.0 no error of the document is about an unknown field: such fields
    are accepted in silence. *)
Theorem unknown_fields_rejected_by_v1_0_0_only doc p m k :
  object_at doc p = Some m ->
  is_Some (m !! k) ->
  ~ In k (named_1_0_0 p) ->
  (forall rest, k ≠ "x_" +:+ rest) ->
  (In (Error (path_of p) "additionalProperties" k)
      (check v1_0_0.schema "" (JObj doc))
   /\ exists errors,
        CLI.validateNALTProtocol "v1.0.0" (JObj doc) = CLI.DoesNotConform errors)
  /\ forall version schema e,
       In version later_versions ->
       CLI.schema_file version = Some schema ->
       In e (check schema "" (JObj doc)) ->
       failed e ≠ "additionalProperties".
Proof.
  intros Hat [v Hk] Hnamed Hprefix.
  assert (Hpat : full_match (Seq (lit "x_") (Star any)) k = false).
  { apply not_true_is_false. intros H. apply x_pattern_spec in H as [rest ->].
    by apply (Hprefix rest). }
  split.
  - assert (He : In (Error (path_of p) "additionalProperties" k)
                   (check v1_0_0.schema "" (JObj doc))).
    { destruct p as [i|]; cbn [object_at path_of named_1_0_0] in *.
      - destruct (doc !! "entries") as [[| | | |es|]|] eqn:Hes; try discriminate.
        destruct (es !! i) as [[| | | | |m']|] eqn:Hi; try discriminate.
        injection Hat as ->.
        eapply (check_property _ _ _ _ "entries");
          [in_list | in_list | exact Hes |].
        eapply check_item; [in_list | exact Hi |].
        eapply additional_in_closed_object;
          [in_list | exact Hk | exact Hnamed |].
        repeat constructor. exact Hpat.
      - destruct (doc !! "meta") as [[| | | | |m']|] eqn:Hm; try discriminate.
        injection Hat as ->.
        eapply (check_property _ _ _ _ "meta");
          [in_list | in_list | exact Hm |].
        eapply additional_in_closed_object;
          [in_list | exact Hk | exact Hnamed |].
        repeat constructor. exact Hpat. }
    split; [exact He|]. by eapply not_conforms.
  - intros version schema e Hv Hs He Hfailed.
    apply check_failed in He. rewrite Hfailed in He.
    unfold later_versions in Hv. simpl in Hv.
    destruct Hv as [<- | [<- | [<- | []]]]; injection Hs as <-;
      vm_compute in He;
      repeat (destruct He as [He | He]; [discriminate He|]); exact He.
Qed.

Lemma unknown_fields_rejected_by_v1_0_0_only_witness :
  (In (Error "/entries/0" "additionalProperties" "foo")
      (check v1_0_0.schema "" (JObj (Samples.doc_with_field "v1.0.0" "foo")))
   /\ exists errors,
        CLI.validateNALTProtocol "v1.0.0" (JObj (Samples.doc_with_field "v1.0.0" "foo"))
        = CLI.DoesNotConform errors)
  /\ forall version schema e,
       In version later_versions ->
       CLI.schema_file version = Some schema ->
       In e (check schema "" (JObj (Samples.doc_with_field "v1.0.0" "foo"))) ->
       failed e ≠ "additionalProperties".
Proof.
  refine (unknown_fields_rejected_by_v1_0_0_only
            (Samples.doc_with_field "v1.0.0" "foo") (in_entry 0)
            (list_to_map [("entry_id", JStr "e1"); ("type", JStr "event");
                          ("mode", JStr "morning");
                          ("content_format", JStr "text/plain");
                          ("content", JStr "hi"); ("foo", JStr "?")])
            "foo" _ _ _ _).
  - reflexivity.
  - eexists. reflexivity.
  - vm_compute. intros H.
    repeat (destruct H as [H | H]; [discriminate H|]). exact H.
  - intros rest H. discriminate H.
Defined.

(** The same field in a document of a later version: the document
    conforms; and so does a v1.0.0 document whose extra field begins with
    [x_]. *)
Lemma unknown_field_accepted_after_v1_0_0 :
  Forall (fun version =>
            CLI.validateNALTProtocol version
              (JObj (Samples.doc_with_field version "foo")) = CLI.Conforms)
         later_versions
  /\ CLI.validateNALTProtocol "v1.0.0" (JObj (Samples.doc_with_field "v1.0.0" "x_foo"))
     = CLI.Conforms.
Proof. split; [repeat constructor|]; vm_compute; reflexivity. Qed.

Lemma mood_at_inv doc i j mood :
  mood_at doc i j = Some mood ->
  exists es entry moods,
    doc !! "entries" = Some (JArr es) /\ es !! i = Some (JObj entry)
    /\ entry !! "moods" = Some (JArr moods) /\ moods !! j = Some (JObj mood).
Proof.
  unfold mood_at. intros H.
  destruct (doc !! "entries") as [[| | | |es|]|] eqn:Hes; try discriminate.
  destruct (es !! i) as [[| | | | |entry]|] eqn:Hi; try discriminate.
  destruct (entry !! "moods") as [[| | | |moods|]|] eqn:Hm; try discriminate.
  destruct (moods !! j) as [[| | | | |mood']|] eqn:Hj; try discriminate.
  injection H as <-. by exists es, entry, moods.
Qed.

Lemma check_multipleOf s path x d :
  In (multipleOf x) s ->
  ((x =? 0)%float || negb (parseInt_same (d / x)%float)) = true ->
  In (Error path "multipleOf" "") (check s path (JNum d)).
Proof.
  intros Hs Hx. apply check_in. exists (multipleOf x). split; [exact Hs|].
  cbn [check_keyword]. rewrite Hx. by left.
Qed.

Lemma check_minimum s path x d :
  In (minimum x) s -> (d <? x)%float = true ->
  In (Error path "minimum" "") (check s path (JNum d)).
Proof.
  intros Hs Hx. apply check_in. exists (minimum x). split; [exact Hs|].
  cbn [check_keyword]. rewrite Hx. by left.
Qed.

Lemma check_maximum s path x d :
  In (maximum x) s -> (x <? d)%float = true ->
  In (Error path "maximum" "") (check s path (JNum d)).
Proof.
  intros Hs Hx. apply check_in. exists (maximum x). split; [exact Hs|].
  cbn [check_keyword]. rewrite Hx. by left.
Qed.

(** An error at the intensity of a mood is an error of the document, for
    a schema that describes moods as the schemas before 1.2.0 do. *)
Lemma check_intensity schema es_s entries_s entry_s ps moods_s mood_s mps
    intensity_s doc i j mood v e :
  In (properties es_s) schema ->
  In ("entries", entries_s) es_s ->
  In (items entry_s) entries_s ->
  In (properties ps) entry_s ->
  In ("moods", moods_s) ps ->
  In (items mood_s) moods_s ->
  In (properties mps) mood_s ->
  In ("intensity", intensity_s) mps ->
  mood_at doc i j = Some mood ->
  mood !! "intensity" = Some v ->
  In e (check intensity_s (intensity_path i j) v) ->
  In e (check schema "" (JObj doc)).
Proof.
  intros H1 H2 H3 H4 H5 H6 H7 H8 Hat Hv He.
  apply mood_at_inv in Hat as (es & entry & moods & Hes & Hi & Hm & Hj).
  eapply check_property; [exact H1 | exact H2 | exact Hes |].
  eapply check_item; [exact H3 | exact Hi |].
  eapply check_property; [exact H4 | exact H5 | exact Hm |].
  eapply check_item; [exact H6 | exact Hj |].
  eapply check_property; [exact H7 | exact H8 | exact Hv |].
  exact He.
Qed.


Lemma validator_reports_schema_errors schema w data e :
  In e (check schema "" data) ->
  NALTValidator.validate_with schema w data
  = inr {| NALTValidator.valid := false;
           NALTValidator.errors :=
             Some (NALTValidator.SchemaError <$> check schema "" data) |}.
Proof.
  intros He. unfold NALTValidator.validate_with, Ajv.validate.
  destruct (check schema "" data); [contradiction | reflexivity].
Qed.

(** C8, as the claim states it, fails at version 1.2.0, a version later
    than 1.1.0: a v1.2.0 document with the mood of intensity 0.855
    conforms. *)
Lemma v1_2_0_accepts_intensity_0_855 :
  (exists mood,
     mood_at (Samples.doc_with_mood "v1.2.0" 0.855) 0 0 = Some mood
     /\ mood !! "type" = Some (JStr "happy")
     /\ mood !! "intensity" = Some (JNum 0.855))
  /\ CLI.validateNALTProtocol "v1.2.0" (JObj (Samples.doc_with_mood "v1.2.0" 0.855))
     = CLI.Conforms.
Proof.
  split; [|vm_compute; reflexivity].
  eexists. split; [vm_compute; reflexivity|]. split; reflexivity.
Qed.

(** C8, amended.  Under versions 1.1.0 and 1.1.1 validation fails every
    document that holds a mood of intensity 0.855, with a [multipleOf]
    error at the intensity (0.855 / 0.01 is 85.5, no integer), and so does
    [NALTValidator.validate]; the same document with 0.85 conforms.  Under
    1.0.0 no [multipleOf] error exists and only the interval from 0 to 1
    is enforced; under 1.2.0, where moods are extension fields, the
    intensity is not constrained at all: 0.855 conforms under both. *)
Theorem intensity_precision_by_version doc i j mood :
  mood_at doc i j = Some mood ->
  mood !! "intensity" = Some (JNum 0.855) ->
  (forall version schema,
     In version ["v1.1.0"; "v1.1.1"] ->
     CLI.schema_file version = Some schema ->
     In (Error (intensity_path i j) "multipleOf" "") (check schema "" (JObj doc))
     /\ exists errors,
          CLI.validateNALTProtocol version (JObj doc) = CLI.DoesNotConform errors)
  /\ (forall w, exists errors,
        NALTValidator.validate w (JObj doc)
        = inr {| NALTValidator.valid := false;
                 NALTValidator.errors := Some errors |})
  /\ (forall version schema e,
        In version ["v1.0.0"; "v1.2.0"] ->
        CLI.schema_file version = Some schema ->
        In e (check schema "" (JObj doc)) ->
        failed e ≠ "multipleOf")
  /\ (forall version,
        In version ["v1.0.0"; "v1.1.0"; "v1.1.1"; "v1.2.0"] ->
        CLI.validateNALTProtocol version (JObj (Samples.doc_with_mood version 0.85))
        = CLI.Conforms)
  /\ CLI.validateNALTProtocol "v1.0.0" (JObj (Samples.doc_with_mood "v1.0.0" 0.855))
     = CLI.Conforms
  /\ CLI.validateNALTProtocol "v1.2.0" (JObj (Samples.doc_with_mood "v1.2.0" 0.855))
     = CLI.Conforms
  /\ (forall doc' mood' x,
        mood_at doc' i j = Some mood' ->
        mood' !! "intensity" = Some (JNum x) ->
        ((x <? 0) || (1 <? x))%float = true ->
        exists errors,
          CLI.validateNALTProtocol "v1.0.0" (JObj doc') = CLI.DoesNotConform errors).
Proof.
  intros Hat Hv.
  assert (Hbad : ((0.01 =? 0)%float
                  || negb (parseInt_same (0.855 / 0.01)%float)) = true)
    by (vm_compute; reflexivity).
  split; [|split; [|split; [|split; [|split; [|split]]]]].
  - intros version schema Hin Hs.
    assert (He : In (Error (intensity_path i j) "multipleOf" "")
                   (check schema "" (JObj doc))).
    { simpl in Hin. destruct Hin as [<- | [<- | []]]; injection Hs as <-.
      - eapply check_intensity;
          [in_list | in_list | in_list | in_list | in_list | in_list
          | in_list | in_list | exact Hat | exact Hv |].
        eapply check_multipleOf; [in_list | exact Hbad].
      - eapply check_intensity;
          [in_list | in_list | in_list | in_list | in_list | in_list
          | in_list | in_list | exact Hat | exact Hv |].
        eapply check_multipleOf; [in_list | exact Hbad]. }
    split; [exact He|]. by eapply not_conforms.
  - intros w. eexists. eapply validator_reports_schema_errors.
    eapply check_intensity;
      [in_list | in_list | in_list | in_list | in_list | in_list
      | in_list | in_list | exact Hat | exact Hv |].
    eapply check_multipleOf; [in_list | exact Hbad].
  - intros version schema e Hin Hs He Hfailed.
    apply check_failed in He. rewrite Hfailed in He.
    simpl in Hin. destruct Hin as [<- | [<- | []]]; injection Hs as <-;
      vm_compute in He;
      repeat (destruct He as [He | He]; [discriminate He|]); exact He.
  - intros version Hin. simpl in Hin.
    destruct Hin as [<- | [<- | [<- | [<- | []]]]]; vm_compute; reflexivity.
  - vm_compute; reflexivity.
  - vm_compute; reflexivity.
  - intros doc' mood' x Hat' Hx Hout.
    apply orb_true_iff in Hout as [Hlow | Hhigh].
    + eapply not_conforms; [reflexivity|].
      eapply check_intensity;
        [in_list | in_list | in_list | in_list | in_list | in_list
        | in_list | in_list | exact Hat' | exact Hx |].
      eapply check_minimum; [in_list | exact Hlow].
    + eapply not_conforms; [reflexivity|].
      eapply check_intensity;
        [in_list | in_list | in_list | in_list | in_list | in_list
        | in_list | in_list | exact Hat' | exact Hx |].
      eapply check_maximum; [in_list | exact Hhigh].
Qed.

Lemma valid_type s path t data :
  check s path data = [] -> In (type_ t) s -> has_type t data = true.
Proof.
  intros Hv Hs. destruct (has_type t data) eqn:E; [reflexivity|].
  pose proof (check_type s path t data Hs E) as H. rewrite Hv in H. contradiction.
Qed.

Lemma valid_required s path (m : gmap string json) names name :
  check s path (JObj m) = [] -> In (required names) s -> In name names ->
  is_Some (m !! name).
Proof.
  intros Hv Hs Hn. destruct (m !! name) eqn:E; [by eexists|].
  assert (H : In (Error path "required" name) (check s path (JObj m))).
  { apply check_in. exists (required names). split; [exact Hs|].
    cbn [check_keyword]. apply in_flat_map. exists name. split; [exact Hn|].
    rewrite E. by left. }
  rewrite Hv in H. contradiction.
Qed.

Lemma valid_property s path (m : gmap string json) ps name sub v :
  check s path (JObj m) = [] -> In (properties ps) s -> In (name, sub) ps ->
  m !! name = Some v -> check sub (child path name) v = [].
Proof.
  intros Hv Hs Hp Hm. destruct (check sub (child path name) v) as [|e es] eqn:E;
    [reflexivity|].
  assert (H : In e (check s path (JObj m))).
  { eapply check_property; [exact Hs | exact Hp | exact Hm |]. rewrite E. by left. }
  rewrite Hv in H. contradiction.
Qed.

Lemma valid_item s path (l : list json) sub i x :
  check s path (JArr l) = [] -> In (items sub) s -> l !! i = Some x ->
  check sub (child path (pretty i)) x = [].
Proof.
  intros Hv Hs Hx. destruct (check sub (child path (pretty i)) x) as [|e es] eqn:E;
    [reflexivity|].
  assert (H : In e (check s path (JArr l))).
  { eapply check_item; [exact Hs | exact Hx |]. rewrite E. by left. }
  rewrite Hv in H. contradiction.
Qed.

Lemma has_type_object data : has_type TObject data = true -> exists m, data = JObj m.
Proof. destruct data; try discriminate. by eexists. Qed.

Lemma has_type_array data : has_type TArray data = true -> exists l, data = JArr l.
Proof. destruct data; try discriminate. by eexists. Qed.

Lemma has_type_string data : has_type TString data = true -> exists s, data = JStr s.
Proof. destruct data; try discriminate. by eexists. Qed.

Lemma valid_relation path r :
  check embedded.relation path r = [] -> relation_shaped r.
Proof.
  intros Hv.
  destruct (has_type_object r (valid_type _ _ _ _ Hv ltac:(in_list))) as [m ->].
  destruct (valid_required _ _ m _ "target_id" Hv ltac:(in_list) ltac:(in_list))
    as [t Ht].
  pose proof (valid_property _ _ m _ "target_id" _ t Hv
                ltac:(in_list) ltac:(in_list) Ht) as Hvt.
  destruct (has_type_string t (valid_type _ _ _ _ Hvt ltac:(in_list))) as [s ->].
  by exists m, s.
Qed.

Lemma valid_entry created_at path e :
  check (embedded.entry created_at) path e = [] -> entry_shaped e.
Proof.
  intros Hv.
  destruct (has_type_object e (valid_type _ _ _ _ Hv ltac:(in_list))) as [m ->].
  destruct (valid_required _ _ m _ "entry_id" Hv ltac:(in_list) ltac:(in_list))
    as [i Hi].
  pose proof (valid_property _ _ m _ "entry_id" _ i Hv
                ltac:(in_list) ltac:(in_list) Hi) as Hvi.
  destruct (has_type_string i (valid_type _ _ _ _ Hvi ltac:(in_list))) as [id ->].
  exists m, id. split; [reflexivity|]. split; [exact Hi|].
  intros v Hx.
  assert (Hvx : check [type_ TArray; items embedded.relation]
                  (child path "x_relations") v = []).
  { eapply (valid_property _ _ m _ "x_relations"); [exact Hv | in_list | | exact Hx].
    do 3 right. cbn [app]. apply in_or_app. right. in_list. }
  destruct (has_type_array v (valid_type _ _ _ _ Hvx ltac:(in_list))) as [rels ->].
  exists rels. split; [reflexivity|].
  apply Forall_lookup. intros j r Hj.
  eapply valid_relation. eapply valid_item; [exact Hvx | in_list | exact Hj].
Qed.

(** A document the schema of the validator accepts has the shape
    [customValidations] relies on. *)
Lemma valid_document schema ps created_at doc :
  In (type_ TObject) schema ->
  In (required ["spec_version"; "document_id"; "date"; "meta"; "entries"]) schema ->
  In (properties ps) schema ->
  In ("entries", [type_ TArray; minItems 1; items (embedded.entry created_at)]) ps ->
  check schema "" doc = [] -> document_shaped doc.
Proof.
  intros Ht Hr Hp He Hv.
  destruct (has_type_object doc (valid_type _ _ _ _ Hv Ht)) as [m ->].
  destruct (valid_required _ _ m _ "entries" Hv Hr ltac:(in_list)) as [v Hes].
  pose proof (valid_property _ _ m _ "entries" _ v Hv Hp He Hes) as Hve.
  destruct (has_type_array v (valid_type _ _ _ _ Hve ltac:(in_list))) as [es ->].
  exists m, es. split; [reflexivity|]. split; [exact Hes|].
  apply Forall_lookup. intros i e Hi.
  eapply valid_entry. eapply valid_item; [exact Hve | in_list | exact Hi].
Qed.

Lemma loadSchema_valid_shaped doc :
  check embedded.loadSchema "" doc = [] -> document_shaped doc.
Proof. eapply valid_document; in_list. Qed.

Lemma loadSchema_1_1_0_valid_shaped doc :
  check embedded.loadSchema_1_1_0 "" doc = [] -> document_shaped doc.
Proof. eapply valid_document; in_list. Qed.

(** *** customValidations on a shaped document *)

Lemma forEach_pure {A} (f : A -> exn + list verror) (g : A -> list verror) l :
  Forall (fun x => f x = inr (g x)) l -> forEach f l = inr (flat_map g l).
Proof.
  induction 1 as [|x l Hx _ IH]; [reflexivity|].
  cbn [forEach flat_map]. by rewrite Hx, IH.
Qed.

Lemma map_ids_shaped es :
  Forall entry_shaped es -> map_ids es = inr (entry_ids es).
Proof.
  induction 1 as [|e es (m & id & -> & _) _ IH]; [reflexivity|].
  cbn [map_ids entry_id_of]. rewrite IH. reflexivity.
Qed.

Lemma check_relation_shaped w ids entry r :
  relation_shaped r ->
  check_relation w ids entry r
  = inr (if Set_has ids (get_prop r "target_id") then []
         else [dangling_error w entry r]).
Proof.
  intros (m & t & -> & Ht). cbn [check_relation].
  destruct (Set_has ids (get_prop (JObj m) "target_id")); reflexivity.
Qed.

Lemma check_entry_shaped w es entry :
  entry_shaped entry ->
  check_entry w (entry_ids es) entry
  = inr (dangling_error w entry <$> filter (fun r => dangling es r = true)
                                      (relations_of entry)).
Proof.
  intros (m & id & -> & Hid & Hrels). unfold check_entry, relations_of.
  cbn [get_prop]. destruct (m !! "x_relations") as [v|] eqn:Hx; [|reflexivity].
  destruct (Hrels v eq_refl) as (rels & -> & Hshaped). cbn [truthy].
  rewrite (forEach_pure _ (fun r => if Set_has (entry_ids es) (get_prop r "target_id")
                                    then [] else [dangling_error w (JObj m) r])).
  - f_equal. clear. induction rels as [|r rels IH]; [reflexivity|].
    cbn [flat_map]. rewrite IH, filter_cons.
    destruct (decide (dangling es r = true)) as [Hd | Hd]; unfold dangling in Hd;
      destruct (Set_has (entry_ids es) (get_prop r "target_id"));
      try discriminate; try (exfalso; by apply Hd); reflexivity.
  - eapply Forall_impl; [exact Hshaped|]. intros r Hr.
    by apply check_relation_shaped.
Qed.

Lemma customValidations_shaped w m es :
  m !! "entries" = Some (JArr es) ->
  Forall entry_shaped es ->
  customValidations w (JObj m)
  = inr (end_date_errors w m ++ dangling_errors w es).
Proof.
  intros Hes Hshaped. unfold customValidations. rewrite Hes.
  rewrite (map_ids_shaped es Hshaped).
  rewrite (forEach_pure _ (fun entry =>
             dangling_error w entry <$> filter (fun r => dangling es r = true)
                                          (relations_of entry))).
  - reflexivity.
  - eapply Forall_impl; [exact Hshaped|]. intros e He.
    by apply check_entry_shaped.
Qed.

Lemma intensity_precision_by_version_witness :
  (forall version schema,
     In version ["v1.1.0"; "v1.1.1"] ->
     CLI.schema_file version = Some schema ->
     In (Error (intensity_path 0 0) "multipleOf" "")
        (check schema "" (JObj (Samples.doc_with_mood "v1.1.1" 0.855)))
     /\ exists errors,
          CLI.validateNALTProtocol version (JObj (Samples.doc_with_mood "v1.1.1" 0.855))
          = CLI.DoesNotConform errors)
  /\ (forall w, exists errors,
        NALTValidator.validate w (JObj (Samples.doc_with_mood "v1.1.1" 0.855))
        = inr {| NALTValidator.valid := false;
                 NALTValidator.errors := Some errors |})
  /\ (forall version schema e,
        In version ["v1.0.0"; "v1.2.0"] ->
        CLI.schema_file version = Some schema ->
        In e (check schema "" (JObj (Samples.doc_with_mood "v1.1.1" 0.855))) ->
        failed e ≠ "multipleOf")
  /\ (forall version,
        In version ["v1.0.0"; "v1.1.0"; "v1.1.1"; "v1.2.0"] ->
        CLI.validateNALTProtocol version (JObj (Samples.doc_with_mood version 0.85))
        = CLI.Conforms)
  /\ CLI.validateNALTProtocol "v1.0.0" (JObj (Samples.doc_with_mood "v1.0.0" 0.855))
     = CLI.Conforms
  /\ CLI.validateNALTProtocol "v1.2.0" (JObj (Samples.doc_with_mood "v1.2.0" 0.855))
     = CLI.Conforms
  /\ (forall doc' mood' x,
        mood_at doc' 0 0 = Some mood' ->
        mood' !! "intensity" = Some (JNum x) ->
        ((x <? 0) || (1 <? x))%float = true ->
        exists errors,
          CLI.validateNALTProtocol "v1.0.0" (JObj doc') = CLI.DoesNotConform errors).
Proof.
  refine (intensity_precision_by_version
            (Samples.doc_with_mood "v1.1.1" 0.855) 0 0
            (list_to_map [("type", JStr "happy"); ("intensity", JNum 0.855)]) _ _).
  - reflexivity.
  - reflexivity.
Defined.

Lemma Set_has_absent es t :
  (forall e, In e es -> get_prop e "entry_id" ≠ Some (JStr t)) ->
  Set_has (entry_ids es) (Some (JStr t)) = false.
Proof.
  intros Hno. unfold Set_has, entry_ids. apply not_true_is_false. intros H.
  apply existsb_exists in H as (x & Hx & Heq).
  apply list_elem_of_In, list_elem_of_fmap in Hx as (e & -> & He).
  apply list_elem_of_In in He.
  destruct (get_prop e "entry_id") as [[| | |s| |]|] eqn:E; try discriminate Heq.
  cbn in Heq. apply String.eqb_eq in Heq as <-. by apply (Hno e He).
Qed.

Lemma dangling_error_listed w es i entry j r :
  es !! i = Some entry ->
  relations_of entry !! j = Some r ->
  dangling es r = true ->
  In (dangling_error w entry r) (dangling_errors w es).
Proof.
  intros Hi Hj Hd. unfold dangling_errors. apply in_flat_map.
  exists entry. split; [apply list_elem_of_In; by eapply list_elem_of_lookup_2|].
  apply list_elem_of_In, list_elem_of_fmap_2, list_elem_of_filter.
  split; [exact Hd|]. by eapply list_elem_of_lookup_2.
Qed.

Lemma dangling_errors_length_of w all es :
  length (flat_map (fun entry =>
                      dangling_error w entry
                        <$> filter (fun r => dangling all r = true) (relations_of entry))
                   es)
  = list_sum ((fun entry => length (filter (fun r => dangling all r = true)
                                      (relations_of entry))) <$> es).
Proof.
  induction es as [|e es IH]; [reflexivity|].
  cbn [flat_map fmap list_fmap list_sum foldr].
  rewrite length_app, length_fmap, IH. reflexivity.
Qed.

Lemma dangling_errors_length w es :
  length (dangling_errors w es) = dangling_count es.
Proof. apply dangling_errors_length_of. Qed.

Lemma validate_schema_valid schema w m es :
  check schema "" (JObj m) = [] ->
  document_shaped (JObj m) ->
  m !! "entries" = Some (JArr es) ->
  validate_with schema w (JObj m)
  = inr (match end_date_errors w m ++ dangling_errors w es with
         | [] => {| valid := true; errors := None |}
         | customs => {| valid := false; errors := Some customs |}
         end).
Proof.
  intros Hv (m' & es' & [= <-] & Hes' & Hshaped) Hes.
  rewrite Hes in Hes'. injection Hes' as <-.
  unfold validate_with, Ajv.validate. rewrite Hv.
  rewrite (customValidations_shaped w m es Hes Hshaped).
  destruct (end_date_errors w m ++ dangling_errors w es); reflexivity.
Qed.

(** C6, as the claim states it, fails: the entry of this document relates
    to [e7], the id of no entry, and its type is outside the enum; the
    validator returns the schema error alone, and no error of its list is
    about the relation. *)
Lemma dangling_relation_unreported_in_invalid_document :
  dangling (Samples.entries_dangling "party") (Samples.relation "e7") = true
  /\ exists errors,
       NALTValidator.validate Samples.morning (JObj (Samples.doc_dangling "party"))
       = inr {| valid := false; errors := Some errors |}
       /\ Forall (fun e => is_custom e = false) errors.
Proof.
  split; [vm_compute; reflexivity|]. eexists. split; [vm_compute; reflexivity|].
  repeat constructor.
Qed.

(** C6, amended.  When a relation of an entry of a document has a
    [target_id] that is the [entry_id] of no entry of the document,
    [validate] returns [valid: false], an error and never a warning.  When
    the document passes the schema, the errors are those of
    [customValidations], and among them is the one of the relation: its
    path is [/entries/<entry_id>/x_relations], the relations of the entry
    named by its id, and its message names the [target_id].  When the
    document fails the schema, the errors are the schema errors and the
    relation is not reported. *)
Theorem dangling_relation_is_an_error w doc es i entry rels j r id t :
  doc !! "entries" = Some (JArr es) ->
  es !! i = Some (JObj entry) ->
  entry !! "entry_id" = Some (JStr id) ->
  entry !! "x_relations" = Some (JArr rels) ->
  rels !! j = Some (JObj r) ->
  r !! "target_id" = Some (JStr t) ->
  (forall e, In e es -> get_prop e "entry_id" ≠ Some (JStr t)) ->
  exists errors,
    NALTValidator.validate w (JObj doc)
    = inr {| valid := false; errors := Some errors |}
    /\ (check embedded.loadSchema "" (JObj doc) = [] ->
        In (CustomError ("/entries/" +:+ id +:+ "/x_relations")
                        ("Invalid target_id reference: " +:+ t)) errors
        /\ errors = end_date_errors w doc ++ dangling_errors w es)
    /\ (check embedded.loadSchema "" (JObj doc) ≠ [] ->
        errors = SchemaError <$> check embedded.loadSchema "" (JObj doc)).
Proof.
  intros Hes Hi Hid Hx Hj Ht Hno.
  assert (Hd : dangling es (JObj r) = true).
  { unfold dangling. cbn [get_prop]. rewrite Ht, (Set_has_absent es t Hno). reflexivity. }
  assert (Hin : In (CustomError ("/entries/" +:+ id +:+ "/x_relations")
                      ("Invalid target_id reference: " +:+ t))
                   (end_date_errors w doc ++ dangling_errors w es)).
  { apply in_or_app. right.
    pose proof (dangling_error_listed w es i (JObj entry) j (JObj r) Hi) as H.
    unfold relations_of, dangling_error in H. cbn [get_prop] in H.
    rewrite Hx, Hid, Ht in H. cbn [ToString_opt ToString] in H. by apply H. }
  destruct (check embedded.loadSchema "" (JObj doc)) as [|e errs] eqn:Hc.
  - exists (end_date_errors w doc ++ dangling_errors w es).
    split; [|split; [by intros _ | by intros []]].
    unfold NALTValidator.validate.
    rewrite (validate_schema_valid _ w doc es Hc (loadSchema_valid_shaped _ Hc) Hes).
    destruct (end_date_errors w doc ++ dangling_errors w es); [contradiction|reflexivity].
  - exists (SchemaError <$> (e :: errs)). split; [|split; [discriminate | by intros _]].
    unfold NALTValidator.validate. rewrite <- Hc.
    eapply validator_reports_schema_errors. rewrite Hc. by left.
Qed.

Lemma dangling_relation_is_an_error_witness :
  exists errors,
    NALTValidator.validate Samples.morning (JObj (Samples.doc_dangling "event"))
    = inr {| valid := false; errors := Some errors |}
    /\ (check embedded.loadSchema "" (JObj (Samples.doc_dangling "event")) = [] ->
        In (CustomError ("/entries/" +:+ "e1" +:+ "/x_relations")
                        ("Invalid target_id reference: " +:+ "e7")) errors
        /\ errors = end_date_errors Samples.morning (Samples.doc_dangling "event")
                    ++ dangling_errors Samples.morning (Samples.entries_dangling "event"))
    /\ (check embedded.loadSchema "" (JObj (Samples.doc_dangling "event")) ≠ [] ->
        errors = SchemaError <$> check embedded.loadSchema "" (JObj (Samples.doc_dangling "event"))).
Proof.
  refine (dangling_relation_is_an_error Samples.morning (Samples.doc_dangling "event") (Samples.entries_dangling "event") 0
            (list_to_map [("entry_id", JStr "e1"); ("type", JStr "event");
                          ("mode", JStr "morning");
                          ("content_format", JStr "text/plain");
                          ("content", JStr "hi");
                          ("x_relations", JArr [Samples.relation "e1"; Samples.relation "e7"])])
            [Samples.relation "e1"; Samples.relation "e7"] 1
            (list_to_map [("type", JStr "related_to"); ("target_id", JStr "e7")])
            "e1" "e7" _ _ _ _ _ _ _).
  - reflexivity.
  - reflexivity.
  - reflexivity.
  - reflexivity.
  - reflexivity.
  - reflexivity.
  - intros e [<- | []]. vm_compute. discriminate.
Defined.

(** C1, as the claim states it, fails: this document has four defects, two
    values outside their enums, an intensity above 1 and a dangling
    relation; [validate] returns three errors, those of the schema, and
    the command-line validator returns the first of them alone. *)
Lemma validate_reports_one_layer_of_defects :
  dangling_count Samples.entries_defects = 1
  /\ (exists a b c,
        NALTValidator.validate Samples.morning (JObj Samples.doc_defects)
        = inr {| valid := false;
                 errors := Some [SchemaError (Error "/entries/0/type" "enum" a);
                                 SchemaError (Error "/entries/0/content_format" "enum" b);
                                 SchemaError (Error "/entries/0/moods/0/intensity"
                                                "maximum" c)] |})
  /\ exists a,
       CLI.validateNALTProtocol "v1.1.1" (JObj Samples.doc_defects)
       = CLI.DoesNotConform [Error "/entries/0/type" "enum" a].
Proof.
  split; [vm_compute; reflexivity|]. split.
  - do 3 eexists. vm_compute. reflexivity.
  - eexists. vm_compute. reflexivity.
Qed.

(** C1, amended.  [validate] checks in two layers and reports one of
    them.  When the document fails the schema, the errors are all the
    schema errors (Ajv runs with [allErrors]) and nothing else.  When it
    passes the schema, [validate] throws nothing, and the errors are those
    of [customValidations]: at most one for [end_date] and exactly one for
    each dangling relation; the result is [valid: true] when there is
    none.  The command-line validators, built with [new Ajv()], report
    one error, the first. *)
Theorem validate_errors_by_layer w doc :
  (check embedded.loadSchema "" doc ≠ [] ->
   NALTValidator.validate w doc
   = inr {| valid := false;
            errors := Some (SchemaError <$> check embedded.loadSchema "" doc) |})
  /\ (check embedded.loadSchema "" doc = [] ->
      exists m es,
        doc = JObj m /\ m !! "entries" = Some (JArr es)
        /\ length (end_date_errors w m) <= 1
        /\ length (dangling_errors w es) = dangling_count es
        /\ NALTValidator.validate w doc
           = inr (match end_date_errors w m ++ dangling_errors w es with
                  | [] => {| valid := true; errors := None |}
                  | customs => {| valid := false; errors := Some customs |}
                  end))
  /\ (forall version errors,
        CLI.validateNALTProtocol version doc = CLI.DoesNotConform errors ->
        exists e, errors = [e] /\ head (check (default [] (CLI.schema_file version)) "" doc) = Some e).
Proof.
  split; [|split].
  - intros Hne. destruct (check embedded.loadSchema "" doc) as [|e errs] eqn:Hc;
      [contradiction|].
    rewrite <- Hc. eapply validator_reports_schema_errors. rewrite Hc. by left.
  - intros Hv. destruct (loadSchema_valid_shaped doc Hv) as (m & es & -> & Hes & Hshaped).
    exists m, es. split; [reflexivity|]. split; [exact Hes|]. split.
    { unfold end_date_errors. destruct (m !! "end_date") as [d|]; [|cbn; lia].
      destruct (truthy d && less_than w d (m !! "date")); cbn; lia. }
    split; [apply dangling_errors_length|].
    apply (validate_schema_valid _ w m es Hv); [|exact Hes].
    by exists m, es.
  - intros version errors. unfold CLI.validateNALTProtocol, Ajv.validate.
    destruct (CLI.schema_file version) as [s|]; [|discriminate]. cbn [default from_option id].
    destruct (check s "" doc) as [|e errs]; [discriminate|].
    cbn. intros [= <-]. by exists e.
Qed.

End Validation.
